(** * Report generator of the e-commerce analytics dashboard

    A shallow embedding of [src/reports/report_generator.py]: the
    [ReportGenerator] class, its two export paths [generate_pdf] and
    [generate_word], and the pieces of Python, pandas, reportlab and
    python-docx they rely on.

    - Python text formatting ([str], the [","] format, [strftime],
      [os.path.join]) is written out on strings.
    - The data frame is a list of order records, in which a cell may be
      missing; [groupby] drops the rows whose key is missing and yields
      the sorted distinct keys with their groups, and ['count'] counts the
      values that are not missing, as pandas does by default.  The
      floating-point mean of a group is a parameter of the development.
    - A finite float64 produced by [round(2)] is represented by its number
      of hundredths; the negative zero, NaN and the infinities are values
      of their own.
    - The file system is a finite map from path to file content, and a
      write to an existing directory succeeds.  A path is its text: the
      model is a case-sensitive POSIX file system without links, on paths
      free of [.] and [..] components and of doubled slashes, where two
      texts name one file only when they are equal.
    - Methods run in a state-and-exception monad over the instance and the
      file system: an exception keeps the mutations made before it.
    - The two report callbacks of [src/dashboard/app.py] and
      [parse_contents] of the stand-alone [app.py] are embedded on top,
      with the drawing of the charts and the decoding of the upload taken
      as given. *)

From Stdlib Require Import ZArith NArith String Ascii List Lia DecimalString.
From Stdlib Require Import Floats.PrimFloat.
From stdpp Require Import base strings list gmap sorting.
Import ListNotations.

Open Scope string_scope.
Open Scope Z_scope.

(** ** Python text formatting *)

Module PyFormat.

(** [str(n)] for a non-negative integer. *)
Definition str_nat (n : N) : string :=
  NilZero.string_of_uint (N.to_uint n).

(** [str(n)] for an integer. *)
Definition str_int (n : Z) : string :=
  match n with
  | Zneg p => "-" +:+ str_nat (Npos p)
  | _ => str_nat (Z.to_N n)
  end.

(** Decimal digit of a number below ten. *)
Definition digit (d : Z) : ascii :=
  ascii_of_N (48 + Z.to_N d).

(** Insertion of [","] after every third digit, on the digits in reverse
    order (least significant first). *)
Fixpoint group3 (rev_digits : list ascii) : list ascii :=
  match rev_digits with
  | a :: b :: c :: ((_ :: _) as rest) => a :: b :: c :: "," %char :: group3 rest
  | l => l
  end.

(** [f"{n:,}"] for a non-negative integer. *)
Definition format_thousands (n : N) : string :=
  string_of_list_ascii
    (rev (group3 (rev (list_ascii_of_string (str_nat n))))).

(** [str(x)] for the float64 nearest to [h/100], the shape every
    [round(2)] result has.  Python prints the shortest decimal that reads
    back as the same double: the integer part, a point, and the decimals
    without trailing zeros but at least one of them.  Positional notation
    is what Python uses below 1e16.  [h = 0] is the positive zero. *)
Definition str_float (h : Z) : string :=
  let a := Z.abs h in
  let frac := a mod 100 in
  (if h <? 0 then "-" else "") +:+
  str_nat (Z.to_N (a / 100)) +:+ "." +:+
  (if frac mod 10 =? 0
   then String (digit (frac / 10)) EmptyString
   else String (digit (frac / 10)) (String (digit (frac mod 10)) EmptyString)).

(** A float64 as [round(2)] leaves it: the double nearest to a number of
    hundredths, the negative zero (what a small negative mean rounds to),
    NaN (the mean of a group without values) or an infinity. *)
Inductive F64 :=
  | Finite (hundredths : Z)
  | NegZero
  | NaN
  | Inf (negative : bool).

(** [str(x)] for a float64. *)
Definition str_f64 (x : F64) : string :=
  match x with
  | Finite h => str_float h
  | NegZero => "-0.0"
  | NaN => "nan"
  | Inf false => "inf"
  | Inf true => "-inf"
  end.

(** The format the specification asks for, [f"{x:,.2f}"]: thousands
    separated, two decimals.  It is not used by the report code; it is
    what the rendering is compared against. *)
Definition format_thousands_2f (h : Z) : string :=
  let a := Z.abs h in
  let frac := a mod 100 in
  (if h <? 0 then "-" else "") +:+
  format_thousands (Z.to_N (a / 100)) +:+ "." +:+
  String (digit (frac / 10)) (String (digit (frac mod 10)) EmptyString).

(** [datetime.now()], to the second. *)
Record datetime := {
  year : Z; month : Z; day : Z; hour : Z; minute : Z; second : Z
}.

(** The ranges Python's [datetime] guarantees. *)
Definition valid_datetime (t : datetime) : Prop :=
  1 <= year t <= 9999 /\ 1 <= month t <= 12 /\ 1 <= day t <= 31 /\
  0 <= hour t <= 23 /\ 0 <= minute t <= 59 /\ 0 <= second t <= 59.

(** Zero-padded fields of [strftime]. *)
Definition two_digits (n : Z) : string :=
  String (digit (n / 10 mod 10)) (String (digit (n mod 10)) EmptyString).

Definition four_digits (n : Z) : string :=
  two_digits (n / 100) +:+ two_digits n.

(** [t.strftime("%Y%m%d_%H%M%S")]. *)
Definition strftime (t : datetime) : string :=
  four_digits (year t) +:+ two_digits (month t) +:+ two_digits (day t) +:+
  "_" +:+
  two_digits (hour t) +:+ two_digits (minute t) +:+ two_digits (second t).

(** [os.path.join(a, b)] on POSIX, for a non-empty [a] that does not end
    in a slash: an absolute [b] discards [a]. *)
Definition path_join (a b : string) : string :=
  if String.prefix "/" b then b else a +:+ "/" +:+ b.

End PyFormat.

Import PyFormat.


(** ** Exceptions *)

(** The exceptions that can leave a method of the report generator.
    [RenderingError] stands for whatever [fig.write_image] raises when
    the chart cannot be turned into an image; [KeyError] and [IndexError]
    are Python's own, from label lookups and cell indexing. *)
Inductive exn := RenderingError | KeyError | IndexError.

Inductive result (A : Type) : Type :=
  | Return (a : A)
  | Raise (e : exn).
Arguments Return {A} a.
Arguments Raise {A} e.

Global Instance result_ret : MRet result := fun A a => Return a.
Global Instance result_bind : MBind result := fun A B f r =>
  match r with
  | Return a => f a
  | Raise e => Raise e
  end.

(** ** The pandas fragment *)

Module Pandas.

(** One row of the delivery data set, with the columns the report reads.
    A cell of a text column is [None] when the value is missing (the NaN
    that [read_csv] puts for an empty field); a missing number is the
    float NaN. *)
Record Order := {
  order_id : option string;
  platform : option string;
  product_category : option string;
  order_value : float;
  delivery_time : float
}.

Definition DataFrame := list Order.

(** [Series.unique()]: distinct values in order of first appearance, the
    missing value among them when it occurs. *)
Fixpoint unique_from {A : Type} `{EqDecision A} (seen : list A) (l : list A)
  : list A :=
  match l with
  | [] => []
  | x :: l' =>
      if decide (x ∈ seen) then unique_from seen l'
      else x :: unique_from (x :: seen) l'
  end.

Definition unique {A : Type} `{EqDecision A} (l : list A) : list A :=
  unique_from [] l.

(** [df.groupby(key)]: the rows whose key is missing are dropped; the
    distinct keys of the others come in sorted order (pandas sorts group
    keys unless told otherwise), each with its rows. *)
Definition groupby (key : Order -> option string) (d : DataFrame)
  : list (string * list Order) :=
  map (fun k => (k, filter (fun o => key o = Some k) d))
      (merge_sort String.le (unique (omap key d))).

(** ['count'] on a text column: the number of values that are not
    missing. *)
Definition count (l : list (option string)) : Z :=
  Z.of_nat (length (filter is_Some l)).

(** ['count'] on a float column: the number of values that are not NaN. *)
Definition count_float (l : list float) : Z :=
  Z.of_nat (length (filter (fun x => is_nan x = false) l)).

(** A cell of an aggregated frame: a float64 already rounded to two
    decimals, or an int64. *)
Inductive Scalar :=
  | Float64 (x : F64)
  | Int64 (n : Z).

(** An aggregated frame: column labels, and the rows by index label. *)
Record Frame := {
  columns : list string;
  rows : list (string * list Scalar)
}.

Definition index (f : Frame) : list string := map fst (rows f).

(** [f.columns = labels]. *)
Definition set_columns (f : Frame) (labels : list string) : Frame :=
  {| columns := labels; rows := rows f |}.

Definition is_int (x : Scalar) : bool :=
  match x with Int64 _ => true | Float64 _ => false end.

Definition to_float (x : Scalar) : Scalar :=
  match x with
  | Int64 n => Float64 (Finite (100 * n))
  | Float64 x => Float64 x
  end.

(** A row read out of a frame is a Series with one dtype: as soon as one
    column is float64, the integers of the row become floats. *)
Definition upcast (row : list Scalar) : list Scalar :=
  if forallb is_int row then row else map to_float row.

Definition Series := list (string * Scalar).

Fixpoint assoc {V : Type} (k : string) (l : list (string * V)) : option V :=
  match l with
  | [] => None
  | (k', v) :: l' => if decide (k' = k) then Some v else assoc k l'
  end.

(** [f.loc[label]]. *)
Definition loc (f : Frame) (label : string) : result Series :=
  match assoc label (rows f) with
  | Some row => Return (zip (columns f) (upcast row))
  | None => Raise KeyError
  end.

(** [s[label]]. *)
Definition getitem (s : Series) (label : string) : result Scalar :=
  match assoc label s with
  | Some v => Return v
  | None => Raise KeyError
  end.

(** [str(x)] on a numpy scalar. *)
Definition str_scalar (x : Scalar) : string :=
  match x with
  | Float64 x => str_f64 x
  | Int64 n => str_int n
  end.

End Pandas.

Import Pandas.

(** ** The reportlab fragment *)

Module Reportlab.

Inductive Color := lightgrey | black | grey | whitesmoke.

(** Cell ranges used by the table styles: every cell, [(0,0)..(-1,-1)],
    or the first row, [(0,0)..(-1,0)]. *)
Inductive CellRange := AllCells | HeaderRow.

Inductive StyleCmd :=
  | BACKGROUND (r : CellRange) (c : Color)
  | TEXTCOLOR (r : CellRange) (c : Color)
  | ALIGN (r : CellRange) (a : string)
  | FONTNAME (r : CellRange) (f : string)
  | FONTSIZE (r : CellRange) (s : Z)
  | BOTTOMPADDING (r : CellRange) (p : Z)
  | GRID (r : CellRange) (w : Z) (c : Color).

(** Paragraph styles: the two made in [generate_pdf] and the sample
    stylesheet's [Heading2]. *)
Inductive ParaStyle := CustomTitle | Author | Heading2.

Inductive Flowable :=
  | Paragraph (text : string) (style : ParaStyle)
  | Spacer (width height : Z)
  | Table (data : list (list string)) (style : list StyleCmd)
  | Image (path : string) (width height : Z).

End Reportlab.

(** ** The python-docx fragment *)

Module Docx.

Inductive Block :=
  | Heading (text : string) (level : Z)
  | Para (text : string) (alignment : option Z) (style : string)
  | DocTable (cells : list (list string)) (style : string)
  | Picture (path : string) (width_inches : Z).

(** [doc.add_paragraph('')]. *)
Definition empty_paragraph : Block := Para "" None "Normal".

(** The cells of a row of a table of [cols] columns, as [add_table] and
    [add_row] make them: all empty. *)
Definition empty_row (cols : nat) : list string := replicate cols "".

(** [cells[idx].text = text] on one row. *)
Definition set_cell (cells : list string) (idx : nat) (text : string)
  : result (list string) :=
  if decide (idx < length cells)%nat then Return (<[idx := text]> cells)
  else Raise IndexError.

(** [for idx, x in enumerate(xs, start): cells[idx].text = x]. *)
Fixpoint fill_cells (cells : list string) (start : nat) (xs : list string)
  : result (list string) :=
  match xs with
  | [] => Return cells
  | x :: xs' =>
      cells' ← set_cell cells start x;
      fill_cells cells' (S start) xs'
  end.

End Docx.

(** ** The world the generator runs in *)

(** A plotly figure, as far as the report generator sees it: its layout
    title, and what [fig.write_image(path, format='png', engine='kaleido')]
    does: the bytes it writes at [path], or [None] when it raises. *)
Record Figure := {
  title : string;
  write_image : string -> option (list Byte.byte)
}.

(** What a file holds. *)
Inductive File :=
  | PngFile (data : list Byte.byte)
  | PdfFile (story : list Reportlab.Flowable)
  | DocxFile (body : list Docx.Block).

(** The attributes of a [ReportGenerator] instance.  [image_paths] does not
    exist before the first [save_current_figures]; it is the empty list
    here, and nothing reads it before it is set. *)
Record ReportGenerator := {
  df : DataFrame;
  platform_stats : Frame;
  category_stats : Frame;
  image_paths : list string
}.

(** The instance together with the file system, keyed by path: a file is
    identified by the text of its path.  The directories [output/reports]
    and [output/temp], which [__init__] makes, are implicit in the
    paths. *)
Record World := {
  self : ReportGenerator;
  fs : gmap string File
}.

(** Computations that read and change the world and may raise. *)
Definition M (A : Type) : Type := World -> World * result A.

Global Instance M_ret : MRet M := fun A a w => (w, Return a).
Global Instance M_bind : MBind M := fun A B f m w =>
  match m w with
  | (w', Return a) => f a w'
  | (w', Raise e) => (w', Raise e)
  end.

Definition lift {A : Type} (r : result A) : M A := fun w => (w, r).

Definition get_self : M ReportGenerator := fun w => (w, Return (self w)).

Definition with_image_paths (s : ReportGenerator) (l : list string)
  : ReportGenerator :=
  {| df := df s; platform_stats := platform_stats s;
     category_stats := category_stats s; image_paths := l |}.

(** [self.image_paths = l]. *)
Definition set_image_paths (l : list string) : M unit := fun w =>
  ({| self := with_image_paths (self w) l; fs := fs w |}, Return tt).

(** Writing a file creates it or replaces what was at the path. *)
Definition write_file (path : string) (content : File) : M unit := fun w =>
  ({| self := self w; fs := <[path := content]> (fs w) |}, Return tt).

(** [for x in l: body(x)]. *)
Fixpoint for_each {A : Type} (l : list A) (body : A -> M unit) : M unit :=
  match l with
  | [] => mret tt
  | x :: l' => body x;; for_each l' body
  end.

(** ** [ReportGenerator.__init__] *)

Section Aggregation.

(** [Series.mean()] of a group followed by [round(2)]: floating-point
    arithmetic of the statistics library, taken as given. *)
Variable mean_round2 : list float -> F64.

(** [df.groupby('Platform').agg({'Order Value (INR)': 'mean',
    'Delivery Time (Minutes)': 'mean', 'Order ID': 'count'}).round(2)]. *)
Definition agg_platform (d : DataFrame) : Frame :=
  {| columns := ["Order Value (INR)"; "Delivery Time (Minutes)"; "Order ID"];
     rows := map (fun kg : string * list Order =>
                    (kg.1, [Float64 (mean_round2 (map order_value kg.2));
                            Float64 (mean_round2 (map delivery_time kg.2));
                            Int64 (count (map order_id kg.2))]))
                 (groupby platform d) |}.

(** [df.groupby('Product Category')['Delivery Time (Minutes)']
    .agg(['mean', 'count']).round(2)]. *)
Definition agg_category (d : DataFrame) : Frame :=
  {| columns := ["mean"; "count"];
     rows := map (fun kg : string * list Order =>
                    (kg.1, [Float64 (mean_round2 (map delivery_time kg.2));
                            Int64 (count_float (map delivery_time kg.2))]))
                 (groupby product_category d) |}.

Definition __init__ (d : DataFrame) : ReportGenerator :=
  {| df := d;
     platform_stats :=
       set_columns (agg_platform d)
         ["Avg Order Value"; "Avg Delivery Time"; "Total Orders"];
     category_stats := agg_category d;
     image_paths := [] |}.

End Aggregation.

(** ** Saving the figures *)

Definition save_figure_as_image (fig : Figure) (filename : string) : M string :=
  let temp_path := path_join "output/temp" filename in
  match write_image fig temp_path with
  | Some data => write_file temp_path (PngFile data);; mret temp_path
  | None => lift (Raise RenderingError)
  end.

(** [self.image_paths.append(p)]. *)
Definition append_image_path (p : string) : M unit :=
  s ← get_self; set_image_paths (image_paths s ++ [p]).

(** [figures] is a dict in iteration order: name, then figure. *)
Definition save_current_figures (figures : list (string * Figure)) : M unit :=
  set_image_paths [];;
  for_each figures (fun nf =>
    img_path ← save_figure_as_image nf.2 (nf.1 +:+ ".png");
    append_image_path img_path).

(** ** The two documents *)

Import Reportlab Docx.

(** [str(self.platform_stats.loc[platform][col])]. *)
Definition cell_text (st : Frame) (p col : string) : result string :=
  s ← loc st p;
  v ← getitem s col;
  mret (str_scalar v).

(** The three counts of the overview, already formatted:
    [f"{len(self.df):,}"], then two plain [str] of the length of a
    [unique()]. *)
Definition total_orders_text (s : ReportGenerator) : string :=
  format_thousands (N.of_nat (length (df s))).

Definition platform_count_text (s : ReportGenerator) : string :=
  str_nat (N.of_nat (length (unique (map platform (df s))))).

Definition category_count_text (s : ReportGenerator) : string :=
  str_nat (N.of_nat (length (unique (map product_category (df s))))).

Module Pdf.

Definition overview_style : list StyleCmd :=
  [BACKGROUND AllCells lightgrey; TEXTCOLOR AllCells black;
   ALIGN AllCells "CENTER"; FONTNAME AllCells "Helvetica-Bold";
   FONTSIZE AllCells 12; BOTTOMPADDING AllCells 12; GRID AllCells 1 black].

Definition platform_style : list StyleCmd :=
  [BACKGROUND HeaderRow grey; TEXTCOLOR HeaderRow whitesmoke;
   ALIGN AllCells "CENTER"; FONTNAME HeaderRow "Helvetica-Bold";
   FONTSIZE HeaderRow 12; BOTTOMPADDING HeaderRow 12; GRID AllCells 1 black].

Definition overview_data (s : ReportGenerator) : list (list string) :=
  [["Total Orders"; total_orders_text s];
   ["Number of Platforms"; platform_count_text s];
   ["Number of Product Categories"; category_count_text s]].

(** [[platform] + [str(...loc[platform][col]) for col in columns]]. *)
Definition platform_row (st : Frame) (p : string) : result (list string) :=
  cells ← mapM (cell_text st p) (columns st);
  mret (p :: cells).

(** The header [['Platform'] + list(columns)], then a row per index
    label. *)
Definition platform_data (st : Frame) : result (list (list string)) :=
  body ← mapM (platform_row st) (index st);
  mret (("Platform" :: columns st) :: body).

(** The story handed to [doc.build]. *)
Definition story (s : ReportGenerator) : result (list Flowable) :=
  pd ← platform_data (platform_stats s);
  mret ([Paragraph "E-commerce Delivery Analytics Report" CustomTitle;
         Paragraph "Created by: Vijeta Thakur" Author;
         Spacer 1 12;
         Paragraph "Dataset Overview" Heading2;
         Table (overview_data s) overview_style;
         Spacer 1 20;
         Paragraph "Platform Performance Metrics" Heading2;
         Table pd platform_style;
         Spacer 1 20;
         Paragraph "Visualizations" Heading2]
        ++ flat_map (fun img_path => [Image img_path 450 300; Spacer 1 20])
                    (image_paths s))%list.

End Pdf.

Definition generate_pdf (figures : list (string * Figure)) (now : datetime)
  : M string :=
  save_current_figures figures;;
  let timestamp := strftime now in
  let filename :=
    "output/reports/ecommerce_analysis_report_" +:+ timestamp +:+ ".pdf" in
  s ← get_self;
  story ← lift (Pdf.story s);
  write_file filename (PdfFile story);;
  mret filename.

Module Word.

(** A table row of [cols] empty cells whose first cell is set, then the
    following ones from [rest]. *)
Definition row (cols : nat) (first : string) (rest : list string)
  : result (list string) :=
  cells ← set_cell (empty_row cols) 0 first;
  fill_cells cells 1 rest.

(** [add_table(rows=1, cols=2)] with its header, then three added rows. *)
Definition overview_table (s : ReportGenerator) : result (list (list string)) :=
  r0 ← row 2 "Metric" ["Value"];
  r1 ← row 2 "Total Orders" [total_orders_text s];
  r2 ← row 2 "Number of Platforms" [platform_count_text s];
  r3 ← row 2 "Number of Product Categories" [category_count_text s];
  mret [r0; r1; r2; r3].

(** [for idx, col in enumerate(columns, 1):
       row_cells[idx].text = str(...loc[platform][col])]:
    the text is computed first, then the cell is indexed. *)
Fixpoint fill_platform_cells (st : Frame) (p : string) (cells : list string)
    (idx : nat) (cols : list string) : result (list string) :=
  match cols with
  | [] => Return cells
  | col :: cols' =>
      text ← cell_text st p col;
      cells' ← set_cell cells idx text;
      fill_platform_cells st p cells' (S idx) cols'
  end.

Definition platform_row (st : Frame) (p : string) : result (list string) :=
  cells ← set_cell (empty_row 4) 0 p;
  fill_platform_cells st p cells 1 (columns st).

(** [add_table(rows=1, cols=4)], the header row, then a row per index
    label. *)
Definition platform_table (st : Frame) : result (list (list string)) :=
  header ← row 4 "Platform" (columns st);
  body ← mapM (platform_row st) (index st);
  mret (header :: body).

(** The body of the document at [doc.save].  Tables are filled after
    they are added; they are shown here with their final cells, at the
    place they were added. *)
Definition document (s : ReportGenerator) : result (list Block) :=
  ot ← overview_table s;
  pt ← platform_table (platform_stats s);
  mret ([Heading "E-commerce Delivery Analytics Report" 0;
         Para "Created by: Vijeta Thakur" (Some 1) "Subtitle";
         Heading "Dataset Overview" 1;
         DocTable ot "Table Grid";
         empty_paragraph;
         Heading "Platform Performance Metrics" 1;
         DocTable pt "Table Grid";
         empty_paragraph;
         Heading "Visualizations" 1]
        ++ flat_map (fun img_path => [Picture img_path 6; empty_paragraph])
                    (image_paths s))%list.

End Word.

Definition generate_word (figures : list (string * Figure)) (now : datetime)
  : M string :=
  save_current_figures figures;;
  let timestamp := strftime now in
  let filename :=
    "output/reports/ecommerce_analysis_report_" +:+ timestamp +:+ ".docx" in
  s ← get_self;
  body ← lift (Word.document s);
  write_file filename (DocxFile body);;
  mret filename.

(** The contract's [generate(format, charts)]: the dashboard has one button
    per format, each bound to one of the two methods. *)
Inductive Format := PDF | WORD.

Definition generate (fmt : Format) (figures : list (string * Figure))
    (now : datetime) : M string :=
  match fmt with
  | PDF => generate_pdf figures now
  | WORD => generate_word figures now
  end.

Definition extension (fmt : Format) : string :=
  match fmt with PDF => ".pdf" | WORD => ".docx" end.

(** ** Reading a document back *)

(** The path [save_current_figures] gives the image of the figure [name]. *)
Definition image_path (name : string) : string :=
  path_join "output/temp" (name +:+ ".png").

(** A figure whose [write_image] does not raise at the path it is given. *)
Definition serializable (nf : string * Figure) : Prop :=
  is_Some (write_image nf.2 (image_path nf.1)).

(** Paths of the reports directory, by their text. *)
Definition in_reports_dir (path : string) : bool :=
  String.prefix "output/reports/" path.

(** The parts of a report, whatever the format. *)
Inductive Part :=
  | Title (text : string)
  | Byline (text : string)
  | SectionHeading (text : string)
  | TextBlock (text : string)
  | TableBlock
  | ImageBlock (path : string).

Module PdfView.

(** Spacers are layout only; every other flowable is a part. *)
Definition part (x : Flowable) : list Part :=
  match x with
  | Paragraph t CustomTitle => [Title t]
  | Paragraph t Author => [Byline t]
  | Paragraph t Heading2 => [SectionHeading t]
  | Spacer _ _ => []
  | Table _ _ => [TableBlock]
  | Image p _ _ => [ImageBlock p]
  end.

Definition outline (story : list Flowable) : list Part := flat_map part story.

(** What follows the section heading [h]. *)
Fixpoint after_heading (h : string) (story : list Flowable) : list Flowable :=
  match story with
  | [] => []
  | Paragraph t Heading2 :: rest =>
      if decide (t = h) then rest else after_heading h rest
  | _ :: rest => after_heading h rest
  end.

(** The table that opens the section headed [h]. *)
Definition table_of (h : string) (story : list Flowable)
  : option (list (list string)) :=
  match after_heading h story with
  | Table data _ :: _ => Some data
  | _ => None
  end.

(** Is the image at [path] directly preceded by a paragraph with the
    text [t]? *)
Fixpoint titled_image (t path : string) (story : list Flowable) : bool :=
  match story with
  | [] => false
  | x :: rest =>
      match x, rest with
      | Paragraph t' _, Image p _ _ :: _ =>
          bool_decide (t' = t /\ p = path) || titled_image t path rest
      | _, _ => titled_image t path rest
      end
  end.

End PdfView.

Module WordView.

(** Empty paragraphs are spacing only. *)
Definition part (x : Block) : list Part :=
  match x with
  | Heading t 0 => [Title t]
  | Heading t _ => [SectionHeading t]
  | Para t _ "Subtitle" => [Byline t]
  | Para "" _ _ => []
  | Para t _ _ => [TextBlock t]
  | DocTable _ _ => [TableBlock]
  | Picture p _ => [ImageBlock p]
  end.

Definition outline (body : list Block) : list Part := flat_map part body.

Fixpoint after_heading (h : string) (body : list Block) : list Block :=
  match body with
  | [] => []
  | Heading t _ :: rest =>
      if decide (t = h) then rest else after_heading h rest
  | _ :: rest => after_heading h rest
  end.

Definition table_of (h : string) (body : list Block)
  : option (list (list string)) :=
  match after_heading h body with
  | DocTable cells _ :: _ => Some cells
  | _ => None
  end.

(** Is the picture at [path] directly preceded by a heading or a
    paragraph with the text [t]? *)
Fixpoint titled_image (t path : string) (body : list Block) : bool :=
  match body with
  | [] => false
  | x :: rest =>
      match x, rest with
      | Heading t' _, Picture p _ :: _
      | Para t' _ _, Picture p _ :: _ =>
          bool_decide (t' = t /\ p = path) || titled_image t path rest
      | _, _ => titled_image t path rest
      end
  end.

End WordView.

Definition outline (f : File) : list Part :=
  match f with
  | PdfFile story => PdfView.outline story
  | DocxFile body => WordView.outline body
  | PngFile _ => []
  end.

(** The table under "Platform Performance Metrics". *)
Definition platform_table (f : File) : option (list (list string)) :=
  match f with
  | PdfFile story => PdfView.table_of "Platform Performance Metrics" story
  | DocxFile body => WordView.table_of "Platform Performance Metrics" body
  | PngFile _ => None
  end.

(** The paths of the image blocks, in document order. *)
Definition images (f : File) : list string :=
  flat_map (fun p => match p with ImageBlock path => [path] | _ => [] end)
           (outline f).

(** The visualization section as each format lays it out. *)
Definition pdf_visualizations (paths : list string) : list Flowable :=
  flat_map (fun p => [Image p 450 300; Spacer 1 20]) paths.

Definition word_visualizations (paths : list string) : list Block :=
  flat_map (fun p => [Picture p 6; empty_paragraph]) paths.

(** Does the file hold exactly this visualization section? *)
Definition visualizations_are (f : File) (paths : list string) : Prop :=
  match f with
  | PdfFile story =>
      PdfView.after_heading "Visualizations" story = pdf_visualizations paths
  | DocxFile body =>
      WordView.after_heading "Visualizations" body = word_visualizations paths
  | PngFile _ => False
  end.

(** Is the image at [path] preceded by a block with the text [t]? *)
Definition has_titled_image (f : File) (t path : string) : bool :=
  match f with
  | PdfFile story => PdfView.titled_image t path story
  | DocxFile body => WordView.titled_image t path body
  | PngFile _ => false
  end.

(** The report files of a file system. *)
Definition reports (files : gmap string File) : gmap string File :=
  filter (fun kv => in_reports_dir kv.1 = true) files.

(** ** Class invariant *)

(** What [__init__] establishes and no method changes: three metric
    columns with distinct labels, distinct index labels, and in every row
    two floats and a count. *)
Definition wf_stats (st : Frame) : Prop :=
  columns st = ["Avg Order Value"; "Avg Delivery Time"; "Total Orders"] /\
  NoDup (index st) /\
  Forall (fun r : string * list Scalar =>
            exists a b n, r.2 = [Float64 a; Float64 b; Int64 n]) (rows st).

Definition wf (s : ReportGenerator) : Prop := wf_stats (platform_stats s).

(** A row of the platform table as it is shown: the index label, then the
    [str] of each value of the row read as one Series. *)
Definition rendered_row (r : string * list Scalar) : list string :=
  r.1 :: map str_scalar (upcast r.2).

(** The platform table as it is shown. *)
Definition rendered_table (st : Frame) : list (list string) :=
  ("Platform" :: columns st) :: map rendered_row (rows st).

(** ** Closed forms under the invariant *)

(** The paths [save_current_figures] stores for a mapping of figures. *)
Definition figure_paths (figures : list (string * Figure)) : list string :=
  map (fun nf => image_path nf.1) figures.

(** The file system after every figure of [figures] wrote its image. *)
Definition saved_fs (figures : list (string * Figure))
    (files : gmap string File) : gmap string File :=
  foldl (fun m nf =>
           match write_image nf.2 (image_path nf.1) with
           | Some data => <[image_path nf.1 := PngFile data]> m
           | None => m
           end) files figures.

(** The name [generate] gives the report. *)
Definition report_path (fmt : Format) (now : datetime) : string :=
  "output/reports/ecommerce_analysis_report_" +:+ strftime now +:+ extension fmt.

(** The story of an instance that satisfies the invariant. *)
Definition pdf_story_of (s : ReportGenerator) : list Flowable :=
  ([Paragraph "E-commerce Delivery Analytics Report" CustomTitle;
    Paragraph "Created by: Vijeta Thakur" Author;
    Spacer 1 12;
    Paragraph "Dataset Overview" Heading2;
    Table (Pdf.overview_data s) Pdf.overview_style;
    Spacer 1 20;
    Paragraph "Platform Performance Metrics" Heading2;
    Table (rendered_table (platform_stats s)) Pdf.platform_style;
    Spacer 1 20;
    Paragraph "Visualizations" Heading2]
   ++ pdf_visualizations (image_paths s))%list.

(** The Word body of an instance that satisfies the invariant. *)
Definition word_document_of (s : ReportGenerator) : list Block :=
  ([Heading "E-commerce Delivery Analytics Report" 0;
    Para "Created by: Vijeta Thakur" (Some 1) "Subtitle";
    Heading "Dataset Overview" 1;
    DocTable [["Metric"; "Value"];
              ["Total Orders"; total_orders_text s];
              ["Number of Platforms"; platform_count_text s];
              ["Number of Product Categories"; category_count_text s]]
             "Table Grid";
    empty_paragraph;
    Heading "Platform Performance Metrics" 1;
    DocTable (rendered_table (platform_stats s)) "Table Grid";
    empty_paragraph;
    Heading "Visualizations" 1]
   ++ word_visualizations (image_paths s))%list.

Definition document_of (fmt : Format) (s : ReportGenerator) : File :=
  match fmt with
  | PDF => PdfFile (pdf_story_of s)
  | WORD => DocxFile (word_document_of s)
  end.

(** The world a successful [generate] leaves. *)
Definition generated (fmt : Format) (figures : list (string * Figure))
    (now : datetime) (w : World) : World :=
  let s := with_image_paths (self w) (figure_paths figures) in
  {| self := s;
     fs := <[report_path fmt now := document_of fmt s]>
             (saved_fs figures (fs w)) |}.

(** The loop of [save_current_figures], from any state. *)
Definition save_loop (figures : list (string * Figure)) : M unit :=
  for_each figures (fun nf =>
    img_path ← save_figure_as_image nf.2 (nf.1 +:+ ".png");
    append_image_path img_path).

(** A figure whose [write_image] raises at the path it is given. *)
Definition fails_to_serialize (nf : string * Figure) : Prop :=
  write_image nf.2 (image_path nf.1) = None.

(** The skeleton both formats share, before the images. *)
Definition report_outline (paths : list string) : list Part :=
  ([Title "E-commerce Delivery Analytics Report";
    Byline "Created by: Vijeta Thakur";
    SectionHeading "Dataset Overview";
    TableBlock;
    SectionHeading "Platform Performance Metrics";
    TableBlock;
    SectionHeading "Visualizations"]
   ++ map ImageBlock paths)%list.

(** ** A sample run *)

Module Sample.

(** The hundredths of the sample values. *)
Definition hundredths_of (x : float) : Z :=
  if (x =? 1234.5)%float then 123450
  else if (x =? 30)%float then 3000
  else if (x =? 95.5)%float then 9550
  else if (x =? 42.25)%float then 4225
  else 0.

(** The mean of a group whose values are all equal is that value; the
    sample groups are of that kind. *)
Definition mean (l : list float) : F64 :=
  match l with
  | x :: _ => Finite (hundredths_of x)
  | [] => NaN
  end.

Definition zepto_order (i : nat) : Order :=
  {| order_id := Some ("Z" +:+ str_nat (N.of_nat i));
     platform := Some "Zepto";
     product_category := Some "Grocery";
     order_value := 1234.5%float;
     delivery_time := 30%float |}.

Definition swiggy_order : Order :=
  {| order_id := Some "S0";
     platform := Some "Swiggy";
     product_category := Some "Snacks";
     order_value := 95.5%float;
     delivery_time := 42.25%float |}.

(** 1235 orders on Zepto, then one on Swiggy. *)
Definition orders : DataFrame :=
  (map zepto_order (seq 0 1235) ++ [swiggy_order])%list.

Definition png : list Byte.byte := [Byte.x89; Byte.x50; Byte.x4e; Byte.x47].

Definition boxplot : Figure :=
  {| title := "Delivery Time by Platform"; write_image := fun _ => Some png |}.

Definition scatter : Figure :=
  {| title := "Order Value vs Delivery Time";
     write_image := fun _ => Some (png ++ [Byte.x01])%list |}.

(** A figure kaleido cannot render. *)
Definition broken : Figure :=
  {| title := "Correlation Matrix"; write_image := fun _ => None |}.

Definition figures : list (string * Figure) :=
  [("boxplot", boxplot); ("scatter_plot", scatter)].

Definition now : datetime :=
  {| year := 2025; month := 3; day := 9; hour := 14; minute := 5; second := 0 |}.

(** A fresh instance on an empty output tree. *)
Definition world : World :=
  {| self := __init__ mean orders; fs := ∅ |}.


(** A mapping whose second figure cannot be rendered. *)
Definition figures_with_broken : list (string * Figure) :=
  [("boxplot", boxplot); ("correlation_matrix", broken);
   ("scatter_plot", scatter)].

End Sample.


(** ** The formatting the specification words *)

(** Does the text hold a thousands separator? *)
Definition has_comma (s : string) : bool :=
  existsb (fun c => Ascii.eqb c ",") (list_ascii_of_string s).

(** A metric cell as the specification words it: currency and time values
    thousands-separated with two decimals, counts with none.  The format
    leaves the special values as they are and pads the negative zero. *)
Definition spec_cell (x : Scalar) : string :=
  match x with
  | Float64 (Finite h) => format_thousands_2f h
  | Float64 NegZero => "-0.00"
  | Float64 x => str_f64 x
  | Int64 n => str_int n
  end.

Definition spec_rendered_row (r : string * list Scalar) : list string :=
  r.1 :: map spec_cell r.2.

Definition spec_rendered_table (st : Frame) : list (list string) :=
  ("Platform" :: columns st) :: map spec_rendered_row (rows st).

(** The columns of the platform table: the index label and the three
    metrics. *)
Definition base_columns : list string :=
  ["Platform"; "Avg Order Value"; "Avg Delivery Time"; "Total Orders"].

(** Does a header hold a column beyond the four, such as a count, min or
    max variant of a metric? *)
Definition has_variant_column (header : list string) : bool :=
  existsb (fun c => negb (bool_decide (c ∈ base_columns))) header.

(** The values whose [str] is given by [str_f64]: a double below 1e13 in
    magnitude with at most two decimals has at most fifteen significant
    digits, which Python prints back as they are; the zeros and the
    special values have their fixed texts. *)
Definition positional (x : Scalar) : Prop :=
  match x with
  | Float64 (Finite h) => Z.abs h < 10 ^ 15
  | Float64 _ => True
  | Int64 n => Z.abs n < 10 ^ 13
  end.

Definition positional_stats (st : Frame) : Prop :=
  Forall (fun r : string * list Scalar => Forall positional r.2) (rows st).

(** ** Further readings of the report *)

(** The table under "Dataset Overview". *)
Definition overview_table (f : File) : option (list (list string)) :=
  match f with
  | PdfFile story => PdfView.table_of "Dataset Overview" story
  | DocxFile body => WordView.table_of "Dataset Overview" body
  | PngFile _ => None
  end.

(** A name that is a single path component: it holds no slash.  The image
    of such a name is a file of the temp directory itself, and two such
    names give paths to one file only when they are the same name; with
    slashes, different texts such as [a] and [./a] can name one file. *)
Definition plain_name (name : string) : Prop :=
  existsb (fun c => Ascii.eqb c "/") (list_ascii_of_string name) = false.

(** [text.replace(',', '')]. *)
Definition strip_commas (s : string) : string :=
  string_of_list_ascii
    (List.filter (fun c => negb (Ascii.eqb c ",")) (list_ascii_of_string s)).

(** The counts of the last column of the platform statistics. *)
Definition order_counts (st : Frame) : list Z :=
  flat_map (fun r : string * list Scalar =>
              match r.2 with
              | [_; _; Int64 n] => [n]
              | _ => []
              end) (rows st).

(** The orders of one platform. *)
Definition orders_of (p : string) (d : DataFrame) : list Order :=
  filter (fun o => platform o = Some p) d.

(** An order with a platform and an id: the rows that enter a count of
    the platform statistics. *)
Definition counted (o : Order) : Prop :=
  is_Some (platform o) /\ is_Some (order_id o).

Global Instance counted_dec (o : Order) : Decision (counted o) :=
  and_dec (is_Some_dec (platform o)) (is_Some_dec (order_id o)).

(** The orders that enter the counts. *)
Definition counted_orders (d : DataFrame) : list Order := filter counted d.

(** One when an order of the data has no platform, zero otherwise: the
    missing value that [unique()] lists and [groupby] drops. *)
Definition missing_platform (d : DataFrame) : nat :=
  if decide (None ∈ map platform d) then 1%nat else 0%nat.

(** The sum of a column of integers. *)
Definition sumZ (l : list Z) : Z := foldr Z.add 0 l.

(** An instance as [__init__] made it from the data [d], after any number
    of calls: only the stored image paths may differ. *)
Definition instance (mean_round2 : list float -> F64) (d : DataFrame)
    (paths : list string) : ReportGenerator :=
  with_image_paths (__init__ mean_round2 d) paths.

(** ** The report callbacks of the dashboard *)

Module Dashboard.

(** The figures the six [create_*] functions return when a callback runs;
    how plotly draws them is not modelled. *)
Record Charts := {
  delivery_time_dist : Figure;
  correlation_matrix : Figure;
  scatter_plot : Figure;
  boxplot : Figure;
  category_times : Figure;
  platform_values : Figure
}.

(** The dict both callbacks build, in the order of its keys. *)
Definition figures (c : Charts) : list (string * Figure) :=
  [("delivery_time_dist", delivery_time_dist c);
   ("correlation_matrix", correlation_matrix c);
   ("scatter_plot", scatter_plot c);
   ("boxplot", boxplot c);
   ("category_times", category_times c);
   ("platform_values", platform_values c)].

(** What a callback hands to Dash: nothing ([None], when [n_clicks] is
    falsy), the file [dcc.send_file] read at the path, an exception of the
    report generator, or the failure of [send_file] on a missing file. *)
Inductive Reply :=
  | NoUpdate
  | SendFile (path : string) (content : File)
  | Failed (e : exn)
  | FileNotFound (path : string).

(** [dcc.send_file(filename)] on the outcome of a [generate] call. *)
Definition send_file (r : World * result string) : World * Reply :=
  match r with
  | (w, Return filename) =>
      match fs w !! filename with
      | Some content => (w, SendFile filename content)
      | None => (w, FileNotFound filename)
      end
  | (w, Raise e) => (w, Failed e)
  end.

(** [n_clicks] is [None] before the first click, then the number of
    clicks. *)
Definition generate_pdf_report (c : Charts) (now : datetime)
    (n_clicks : option nat) (w : World) : World * Reply :=
  match n_clicks with
  | Some (S _) => send_file (generate_pdf (figures c) now w)
  | _ => (w, NoUpdate)
  end.

Definition generate_word_report (c : Charts) (now : datetime)
    (n_clicks : option nat) (w : World) : World * Reply :=
  match n_clicks with
  | Some (S _) => send_file (generate_word (figures c) now w)
  | _ => (w, NoUpdate)
  end.

End Dashboard.

(** ** The upload of the stand-alone application *)

Module Upload.

(** What [parse_contents] can raise, by the class an [except] clause
    would match.  [ValueError] stands for the class with its subclasses:
    the unpacking of a list that does not have two elements raises it, and
    so can the library calls ([binascii.Error], [UnicodeDecodeError] and
    pandas' [EmptyDataError] and [ParserError] all derive from it).
    [OtherError] is any exception outside that class. *)
Inductive error := ValueError | OtherError.

(** [s.split(',')]. *)
Fixpoint split_comma (s : string) : list string :=
  match s with
  | EmptyString => [EmptyString]
  | String c s' =>
      if Ascii.eqb c ","
      then EmptyString :: split_comma s'
      else match split_comma s' with
           | h :: t => String c h :: t
           | [] => [String c EmptyString]
           end
  end.

(** The number of commas of a text. *)
Fixpoint comma_count (s : string) : nat :=
  match s with
  | EmptyString => 0
  | String c s' => ((if Ascii.eqb c "," then 1 else 0) + comma_count s')%nat
  end.

Section Parse.

(** The data frame type of the application, and the three library calls
    made on the payload, in one: base64 decoding, UTF-8 decoding and
    [pd.read_csv]; the frame read, or the exception one of them raises. *)
Variable frame : Type.
Variable load : string -> error + frame.

(** [content_type, content_string = contents.split(',')], then the
    decoding of the second part; nothing is caught. *)
Definition parse_contents (contents : string) : error + frame :=
  match split_comma contents with
  | [content_type; content_string] => load content_string
  | _ => inl ValueError
  end.

End Parse.

End Upload.

(** ** Further sample inputs *)

Module Cases.

(** The sample instance on a file system that already holds a file of
    another origin in the reports directory. *)
Definition world_with_notes : World :=
  {| self := self Sample.world;
     fs := {["output/reports/notes.txt" := PngFile Sample.png]} |}.

(** The six charts of the dashboard, all of which render. *)
Definition charts : Dashboard.Charts :=
  {| Dashboard.delivery_time_dist := Sample.boxplot;
     Dashboard.correlation_matrix := Sample.scatter;
     Dashboard.scatter_plot := Sample.scatter;
     Dashboard.boxplot := Sample.boxplot;
     Dashboard.category_times := Sample.boxplot;
     Dashboard.platform_values := Sample.scatter |}.

(** An instance whose statistics were given a fourth metric column. *)
Definition wide_world : World :=
  {| self :=
       {| df := Sample.orders;
          platform_stats :=
            {| columns := ["Avg Order Value"; "Avg Delivery Time";
                           "Total Orders"; "Max Order Value"];
               rows := [("Zepto", [Float64 (Finite 123450);
                                   Float64 (Finite 3000);
                                   Int64 1235;
                                   Float64 (Finite 123450)])] |};
          category_stats := category_stats (self Sample.world);
          image_paths := [] |};
     fs := ∅ |}.

(** Four orders with gaps: the second has no id, the third no platform. *)
Definition order (id p : option string) : Order :=
  {| order_id := id; platform := p; product_category := Some "Grocery";
     order_value := 95.5%float; delivery_time := 30%float |}.

Definition orders_with_gaps : DataFrame :=
  [order (Some "A1") (Some "Zepto");
   order None (Some "Zepto");
   order (Some "A3") None;
   order (Some "A4") (Some "Swiggy")].

(** An upload whose text holds two commas. *)
Definition two_commas : string := "data:text/csv;base64,T3JkZXI,gSUQ=".

(** Two valid clock readings, one second apart. *)
Definition next_second : datetime :=
  {| year := 2025; month := 3; day := 9; hour := 14; minute := 5; second := 1 |}.

End Cases.

(** * Properties *)

(** ** Formatting, on examples *)

Example str_float_1234_5 : str_float 123450 = "1234.5".
Proof. reflexivity. Qed.

Example str_float_95_55 : str_float 9555 = "95.55".
Proof. reflexivity. Qed.

Example str_float_count : str_float (1235 * 100) = "1235.0".
Proof. reflexivity. Qed.

Example str_f64_zeros : str_f64 (Finite 0) = "0.0" /\ str_f64 NegZero = "-0.0".
Proof. split; reflexivity. Qed.

Example rendered_row_special :
  rendered_row ("Zepto", [Float64 NegZero; Float64 NaN; Int64 0]) =
  ["Zepto"; "-0.0"; "nan"; "0.0"].
Proof. reflexivity. Qed.

Example format_thousands_1234567 : format_thousands 1234567 = "1,234,567".
Proof. reflexivity. Qed.

Example format_thousands_999 : format_thousands 999 = "999".
Proof. reflexivity. Qed.

Example format_2f_1234_5 : format_thousands_2f 123450 = "1,234.50".
Proof. reflexivity. Qed.

Example strftime_example :
  strftime {| year := 2025; month := 3; day := 9;
              hour := 14; minute := 5; second := 0 |} = "20250309_140500".
Proof. reflexivity. Qed.

Example path_join_relative : path_join "output/temp" "boxplot.png" = "output/temp/boxplot.png".
Proof. reflexivity. Qed.

Example path_join_absolute : path_join "output/temp" "/srv/x.png" = "/srv/x.png".
Proof. reflexivity. Qed.

(** ** Group keys are distinct *)

Lemma unique_from_spec {A : Type} `{EqDecision A} (seen l : list A) :
  NoDup (unique_from seen l) /\
  forall x, x ∈ unique_from seen l <-> x ∈ l /\ x ∉ seen.
Proof.
  revert seen. induction l as [|y l IH]; intros seen; cbn.
  - split; [constructor|]. intros x. rewrite elem_of_nil. tauto.
  - destruct (decide (y ∈ seen)) as [Hin|Hnin].
    + destruct (IH seen) as [Hnd Hmem]. split; [exact Hnd|].
      intros x. rewrite Hmem, elem_of_cons. split; [tauto|].
      intros [[->|Hx] Hs]; tauto.
    + destruct (IH (y :: seen)) as [Hnd Hmem]. split.
      * constructor; [|exact Hnd]. rewrite Hmem, elem_of_cons. tauto.
      * intros x. rewrite !elem_of_cons, Hmem, elem_of_cons.
        destruct (decide (x = y)) as [->|Hne]; tauto.
Qed.

Lemma NoDup_unique {A : Type} `{EqDecision A} (l : list A) :
  NoDup (unique l).
Proof. apply unique_from_spec. Qed.

Lemma groupby_keys (key : Order -> option string) (d : DataFrame) :
  map fst (groupby key d) = merge_sort String.le (unique (omap key d)).
Proof.
  unfold groupby. rewrite map_map. cbn. apply map_id.
Qed.

Lemma NoDup_groupby_keys (key : Order -> option string) (d : DataFrame) :
  NoDup (map fst (groupby key d)).
Proof.
  rewrite groupby_keys.
  rewrite merge_sort_Permutation. apply NoDup_unique.
Qed.

(** ** [__init__] establishes the class invariant *)

Lemma init_wf (mean_round2 : list float -> F64) (d : DataFrame) :
  wf (__init__ mean_round2 d).
Proof.
  unfold wf, wf_stats, __init__, set_columns, agg_platform, index; cbn.
  split; [reflexivity|]. split.
  - rewrite map_map. cbn. apply (NoDup_groupby_keys platform d).
  - apply Forall_forall. intros r Hr.
    apply list_elem_of_In, in_map_iff in Hr. destruct Hr as [kg [<- _]].
    cbn. eauto.
Qed.

(** ** The platform rows *)

(** The result monad on lists. *)
Lemma mapM_Return_map_on {A B C : Type} (f : B -> result C) (h : A -> B)
    (g : A -> C) (l : list A) :
  (forall x, x ∈ l -> f (h x) = Return (g x)) ->
  mapM f (map h l) = Return (map g l).
Proof.
  induction l as [|x l IH]; intros Hf; [reflexivity|].
  cbn. rewrite (Hf x) by left. cbn.
  rewrite IH; [reflexivity|]. intros y Hy. apply Hf. by right.
Qed.

Lemma assoc_NoDup {V : Type} (k : string) (v : V) (l : list (string * V)) :
  NoDup (map fst l) -> (k, v) ∈ l -> assoc k l = Some v.
Proof.
  induction l as [|[k' v'] l IH]; cbn; intros Hnd Hin.
  - by apply elem_of_nil in Hin.
  - apply NoDup_cons in Hnd as [Hk Hnd].
    apply elem_of_cons in Hin as [Heq|Hin].
    + injection Heq as -> ->. by rewrite decide_True.
    + rewrite decide_False; [by apply IH|].
      intros ->. apply Hk. apply list_elem_of_fmap. by exists (k, v).
Qed.

Section PlatformRows.

Variable st : Frame.
Hypothesis Hwf : wf_stats st.

Lemma loc_wf (p : string) (row : list Scalar) :
  (p, row) ∈ rows st ->
  exists a b n,
    row = [Float64 a; Float64 b; Int64 n] /\
    loc st p = Return [("Avg Order Value", Float64 a);
                       ("Avg Delivery Time", Float64 b);
                       ("Total Orders", Float64 (Finite (100 * n)))].
Proof.
  destruct Hwf as (Hcols & Hnd & Hrows). intros Hin.
  rewrite Forall_forall in Hrows.
  destruct (Hrows _ Hin) as (a & b & n & Hrow). cbn in Hrow. subst row.
  exists a, b, n. split; [reflexivity|].
  unfold loc. rewrite (assoc_NoDup _ _ _ Hnd Hin), Hcols. reflexivity.
Qed.

Lemma cell_text_wf (p : string) (row : list Scalar) :
  (p, row) ∈ rows st ->
  exists a b n,
    row = [Float64 a; Float64 b; Int64 n] /\
    cell_text st p "Avg Order Value" = Return (str_f64 a) /\
    cell_text st p "Avg Delivery Time" = Return (str_f64 b) /\
    cell_text st p "Total Orders" = Return (str_float (100 * n)).
Proof.
  intros Hin. destruct (loc_wf p row Hin) as (a & b & n & -> & Hloc).
  exists a, b, n. unfold cell_text. rewrite Hloc. by repeat split.
Qed.

Lemma pdf_platform_row_wf (r : string * list Scalar) :
  r ∈ rows st -> Pdf.platform_row st r.1 = Return (rendered_row r).
Proof.
  destruct r as [p row]. intros Hin.
  destruct (cell_text_wf p row Hin) as (a & b & n & -> & H1 & H2 & H3).
  unfold Pdf.platform_row. destruct Hwf as (-> & _).
  cbn [mapM fst]. rewrite H1, H2, H3. reflexivity.
Qed.

Lemma word_platform_row_wf (r : string * list Scalar) :
  r ∈ rows st -> Word.platform_row st r.1 = Return (rendered_row r).
Proof.
  destruct r as [p row]. intros Hin.
  destruct (cell_text_wf p row Hin) as (a & b & n & -> & H1 & H2 & H3).
  unfold Word.platform_row. destruct Hwf as (-> & _).
  cbn [fst]. unfold Word.fill_platform_cells.
  rewrite H1, H2, H3. reflexivity.
Qed.

Lemma pdf_platform_data_wf :
  Pdf.platform_data st = Return (rendered_table st).
Proof.
  unfold Pdf.platform_data, index.
  rewrite (mapM_Return_map_on _ fst rendered_row).
  - reflexivity.
  - intros r Hr. by apply pdf_platform_row_wf.
Qed.

Lemma word_platform_table_wf :
  Word.platform_table st = Return (rendered_table st).
Proof.
  unfold Word.platform_table, index.
  assert (Word.row 4 "Platform" (columns st)
          = Return ("Platform" :: columns st)) as ->.
  { destruct Hwf as (-> & _). reflexivity. }
  cbn. rewrite (mapM_Return_map_on _ fst rendered_row).
  - reflexivity.
  - intros r Hr. by apply word_platform_row_wf.
Qed.

End PlatformRows.

(** ** Saving the figures *)

Lemma image_path_not_report (name : string) :
  in_reports_dir (image_path name) = false.
Proof.
  unfold image_path, path_join.
  destruct (String.prefix "/" (name +:+ ".png")) eqn:Habs.
  - apply String.prefix_correct in Habs.
    destruct (name +:+ ".png") as [|c s]; [discriminate|].
    cbn in Habs. injection Habs as -> _. reflexivity.
  - reflexivity.
Qed.

Lemma reports_insert_image (name : string) (f : File) (files : gmap string File) :
  reports (<[image_path name := f]> files) = reports files.
Proof.
  unfold reports. apply map_filter_insert_not.
  intros y. cbn. rewrite image_path_not_report. discriminate.
Qed.

Lemma reports_saved_fs (figures : list (string * Figure)) (files : gmap string File) :
  reports (saved_fs figures files) = reports files.
Proof.
  unfold saved_fs. revert files.
  induction figures as [|nf figures IH]; intros files; [reflexivity|].
  cbn. rewrite IH.
  destruct (write_image nf.2 (image_path nf.1)); [|reflexivity].
  apply reports_insert_image.
Qed.

Lemma save_loop_nil (w : World) : save_loop [] w = (w, Return tt).
Proof. reflexivity. Qed.

Lemma save_loop_cons (nf : string * Figure) (figures : list (string * Figure))
    (w : World) :
  save_loop (nf :: figures) w =
  match write_image nf.2 (image_path nf.1) with
  | Some data =>
      save_loop figures
        {| self := with_image_paths (self w)
                     (image_paths (self w) ++ [image_path nf.1]);
           fs := <[image_path nf.1 := PngFile data]> (fs w) |}
  | None => (w, Raise RenderingError)
  end.
Proof.
  unfold save_loop. cbn [for_each]. unfold mbind at 1, M_bind.
  unfold mbind at 1, M_bind. unfold save_figure_as_image.
  fold (image_path nf.1).
  destruct (write_image nf.2 (image_path nf.1)); reflexivity.
Qed.

Lemma save_loop_ok (figures : list (string * Figure)) :
  Forall serializable figures ->
  forall w,
    save_loop figures w =
    ({| self := with_image_paths (self w)
                  (image_paths (self w) ++ figure_paths figures);
        fs := saved_fs figures (fs w) |}, Return tt).
Proof.
  induction 1 as [|nf figures [data Hdata] _ IH]; intros w.
  - rewrite save_loop_nil. cbn. rewrite app_nil_r. by destruct w as [[] ?].
  - rewrite save_loop_cons, Hdata, IH. cbn.
    unfold saved_fs. cbn. rewrite Hdata.
    by rewrite <- app_assoc.
Qed.

Lemma save_current_figures_ok (figures : list (string * Figure)) (w : World) :
  Forall serializable figures ->
  save_current_figures figures w =
  ({| self := with_image_paths (self w) (figure_paths figures);
      fs := saved_fs figures (fs w) |}, Return tt).
Proof.
  intros Hok. unfold save_current_figures.
  fold (save_loop figures). unfold mbind, M_bind, set_image_paths.
  rewrite (save_loop_ok _ Hok). reflexivity.
Qed.

Lemma save_loop_fail (figures : list (string * Figure)) :
  Exists fails_to_serialize figures ->
  forall w, exists w',
    save_loop figures w = (w', Raise RenderingError) /\
    reports (fs w') = reports (fs w).
Proof.
  induction figures as [|nf figures IH]; intros Hex w.
  - by apply Exists_nil in Hex.
  - rewrite save_loop_cons.
    destruct (write_image nf.2 (image_path nf.1)) as [data|] eqn:Hw.
    + apply Exists_cons in Hex as [Hhd|Htl].
      * unfold fails_to_serialize in Hhd. congruence.
      * destruct (IH Htl {| self := with_image_paths (self w)
                                      (image_paths (self w) ++ [image_path nf.1]);
                            fs := <[image_path nf.1 := PngFile data]> (fs w) |})
          as (w' & Hrun & Hrep).
        exists w'. split; [exact Hrun|].
        rewrite Hrep. cbn. apply reports_insert_image.
    + exists w. split; reflexivity.
Qed.

Lemma save_current_figures_fail (figures : list (string * Figure)) (w : World) :
  Exists fails_to_serialize figures ->
  exists w',
    save_current_figures figures w = (w', Raise RenderingError) /\
    reports (fs w') = reports (fs w).
Proof.
  intros Hex. unfold save_current_figures. fold (save_loop figures).
  unfold mbind, M_bind, set_image_paths.
  destruct (save_loop_fail _ Hex
              {| self := with_image_paths (self w) []; fs := fs w |})
    as (w' & Hrun & Hrep).
  exists w'. rewrite Hrun. split; [reflexivity|exact Hrep].
Qed.

(** ** The documents under the invariant *)

Lemma pdf_story_wf (s : ReportGenerator) :
  wf s -> Pdf.story s = Return (pdf_story_of s).
Proof.
  intros Hwf. unfold Pdf.story.
  rewrite (pdf_platform_data_wf _ Hwf). reflexivity.
Qed.

Lemma word_document_wf (s : ReportGenerator) :
  wf s -> Word.document s = Return (word_document_of s).
Proof.
  intros Hwf. unfold Word.document.
  assert (Word.overview_table s =
          Return [["Metric"; "Value"];
                  ["Total Orders"; total_orders_text s];
                  ["Number of Platforms"; platform_count_text s];
                  ["Number of Product Categories"; category_count_text s]])
    as -> by reflexivity.
  cbn [mbind result_bind].
  rewrite (word_platform_table_wf _ Hwf). reflexivity.
Qed.

(** Total correctness of [generate]: when every figure can be written, the
    call returns the report path and leaves the world [generated]. *)
Lemma generate_ok (fmt : Format) (figures : list (string * Figure))
    (now : datetime) (w : World) :
  wf (self w) ->
  Forall serializable figures ->
  generate fmt figures now w =
  (generated fmt figures now w, Return (report_path fmt now)).
Proof.
  intros Hwf Hok.
  assert (wf (with_image_paths (self w) (figure_paths figures))) as Hwf'
    by exact Hwf.
  destruct fmt; unfold generate, generate_pdf, generate_word;
    unfold mbind at 1, M_bind; rewrite (save_current_figures_ok _ _ Hok);
    unfold mbind, M_bind, get_self, lift; cbn [self fs].
  - rewrite (pdf_story_wf _ Hwf'). reflexivity.
  - rewrite (word_document_wf _ Hwf'). reflexivity.
Qed.

(** ** Reading the generated document *)

Lemma outline_pdf_visualizations (paths : list string) :
  PdfView.outline (pdf_visualizations paths) = map ImageBlock paths.
Proof.
  induction paths as [|p paths IH]; [reflexivity|].
  cbn. f_equal. exact IH.
Qed.

Lemma outline_word_visualizations (paths : list string) :
  WordView.outline (word_visualizations paths) = map ImageBlock paths.
Proof.
  induction paths as [|p paths IH]; [reflexivity|].
  cbn. f_equal. exact IH.
Qed.

Lemma outline_document_of (fmt : Format) (s : ReportGenerator) :
  outline (document_of fmt s) = report_outline (image_paths s).
Proof.
  destruct fmt; unfold document_of, outline, pdf_story_of, word_document_of,
    PdfView.outline, WordView.outline, report_outline.
  - rewrite flat_map_app. f_equal. apply outline_pdf_visualizations.
  - rewrite flat_map_app. f_equal. apply outline_word_visualizations.
Qed.

Lemma images_report_outline (paths : list string) :
  flat_map (fun p => match p with ImageBlock path => [path] | _ => [] end)
           (report_outline paths) = paths.
Proof.
  unfold report_outline. rewrite flat_map_app. cbn.
  induction paths as [|p paths IH]; [reflexivity|]. cbn. by f_equal.
Qed.

Lemma images_document_of (fmt : Format) (s : ReportGenerator) :
  images (document_of fmt s) = image_paths s.
Proof.
  unfold images. rewrite outline_document_of. apply images_report_outline.
Qed.

Lemma platform_table_document_of (fmt : Format) (s : ReportGenerator) :
  platform_table (document_of fmt s) = Some (rendered_table (platform_stats s)).
Proof. destruct fmt; reflexivity. Qed.

Lemma visualizations_document_of (fmt : Format) (s : ReportGenerator) :
  visualizations_are (document_of fmt s) (image_paths s).
Proof. destruct fmt; reflexivity. Qed.

Lemma lookup_generated (fmt : Format) (figures : list (string * Figure))
    (now : datetime) (w : World) :
  fs (generated fmt figures now w) !! report_path fmt now =
  Some (document_of fmt (with_image_paths (self w) (figure_paths figures))).
Proof. unfold generated. cbn. apply lookup_insert_eq. Qed.

Lemma generated_wf (fmt : Format) (figures : list (string * Figure))
    (now : datetime) (w : World) :
  wf (self w) -> wf (self (generated fmt figures now w)).
Proof. intros H. exact H. Qed.


Lemma report_path_in_reports (fmt : Format) (now : datetime) :
  in_reports_dir (report_path fmt now) = true.
Proof. reflexivity. Qed.

Lemma image_path_ne_report_path (name : string) (fmt : Format) (now : datetime) :
  report_path fmt now <> image_path name.
Proof.
  intros Heq. pose proof (image_path_not_report name) as Hn.
  rewrite <- Heq, report_path_in_reports in Hn. discriminate.
Qed.

Lemma saved_fs_step (nf : string * Figure) (figures : list (string * Figure))
    (files : gmap string File) :
  saved_fs (nf :: figures) files =
  saved_fs figures
    match write_image nf.2 (image_path nf.1) with
    | Some data => <[image_path nf.1 := PngFile data]> files
    | None => files
    end.
Proof. reflexivity. Qed.

Lemma saved_fs_cons (nf : string * Figure) (figures : list (string * Figure))
    (files : gmap string File) (data : list Byte.byte) :
  write_image nf.2 (image_path nf.1) = Some data ->
  saved_fs (nf :: figures) files =
  saved_fs figures (<[image_path nf.1 := PngFile data]> files).
Proof. intros H. by rewrite saved_fs_step, H. Qed.

Lemma saved_fs_other (figures : list (string * Figure))
    (files : gmap string File) (p : string) :
  p ∉ figure_paths figures -> saved_fs figures files !! p = files !! p.
Proof.
  revert files. induction figures as [|nf figures IH]; intros files Hp;
    [reflexivity|].
  cbn in Hp. apply not_elem_of_cons in Hp as [Hne Hp].
  rewrite saved_fs_step, IH by exact Hp.
  destruct (write_image nf.2 (image_path nf.1)); [|reflexivity].
  by apply lookup_insert_ne.
Qed.

(** Every stored path holds the image of a figure of the same call. *)
Lemma saved_fs_lookup (figures : list (string * Figure))
    (files : gmap string File) (p : string) :
  Forall serializable figures ->
  p ∈ figure_paths figures ->
  exists nf data,
    nf ∈ figures /\ image_path nf.1 = p /\
    write_image nf.2 p = Some data /\
    saved_fs figures files !! p = Some (PngFile data).
Proof.
  intros Hok. revert files.
  induction Hok as [|nf figures [data Hdata] _ IH]; intros files Hp.
  - by apply elem_of_nil in Hp.
  - rewrite (saved_fs_cons _ _ _ _ Hdata).
    destruct (decide (p ∈ figure_paths figures)) as [Hin|Hnin].
    + destruct (IH (<[image_path nf.1 := PngFile data]> files) Hin)
        as (nf' & data' & Hnf & Hpath & Hw & Hl).
      exists nf', data'. repeat split; auto. by right.
    + cbn in Hp. apply elem_of_cons in Hp as [->|Hp]; [|contradiction].
      exists nf, data. repeat split; auto; [by left|].
      rewrite saved_fs_other by exact Hnin. apply lookup_insert_eq.
Qed.

Lemma save_loop_app_fail (pre post : list (string * Figure))
    (nf : string * Figure) :
  Forall serializable pre ->
  fails_to_serialize nf ->
  forall w,
    save_loop (pre ++ nf :: post) w =
    ({| self := with_image_paths (self w)
                  (image_paths (self w) ++ figure_paths pre);
        fs := saved_fs pre (fs w) |}, Raise RenderingError).
Proof.
  intros Hpre Hnf. induction Hpre as [|x pre [data Hdata] _ IH]; intros w.
  - cbn [app]. rewrite save_loop_cons, Hnf. cbn. rewrite app_nil_r.
    by destruct w as [[] ?].
  - cbn [app].
    rewrite save_loop_cons, Hdata, IH, (saved_fs_cons _ _ _ _ Hdata).
    cbn. by rewrite <- app_assoc.
Qed.



(** Whatever the outcome, the stored paths are those of the first figures
    of the call: nothing of an earlier call stays. *)
Lemma save_loop_paths (figures : list (string * Figure)) (w : World) :
  exists done,
    done `prefix_of` figures /\
    image_paths (self (save_loop figures w).1) =
    (image_paths (self w) ++ figure_paths done)%list.
Proof.
  revert w. induction figures as [|nf figures IH]; intros w.
  - exists []. split; [done|]. cbn. by rewrite app_nil_r.
  - rewrite save_loop_cons.
    destruct (write_image nf.2 (image_path nf.1)) as [data|].
    + destruct (IH {| self := with_image_paths (self w)
                                (image_paths (self w) ++ [image_path nf.1]);
                      fs := <[image_path nf.1 := PngFile data]> (fs w) |})
        as (done & Hpre & Hpaths).
      exists (nf :: done). split; [by apply prefix_cons|].
      rewrite Hpaths. cbn. by rewrite <- app_assoc.
    + exists []. split; [apply prefix_nil|]. cbn. by rewrite app_nil_r.
Qed.

Lemma generate_image_paths_prefix (fmt : Format)
    (figures : list (string * Figure)) (now : datetime) (w : World) :
  exists done,
    done `prefix_of` figures /\
    image_paths (self (generate fmt figures now w).1) = figure_paths done.
Proof.
  destruct (save_loop_paths figures
              {| self := with_image_paths (self w) []; fs := fs w |})
    as (done & Hpre & Hpaths).
  exists done. split; [exact Hpre|]. rewrite <- Hpaths at 1. clear Hpaths.
  destruct fmt; unfold generate, generate_pdf, generate_word,
    save_current_figures; fold (save_loop figures);
    unfold mbind, M_bind, set_image_paths, get_self, lift, write_file, mret, M_ret;
    destruct (save_loop figures _) as [w1 [[]|e]]; cbn; try reflexivity.
  - destruct (Pdf.story (self w1)); reflexivity.
  - destruct (Word.document (self w1)); reflexivity.
Qed.

(** No method touches the data or the statistics: the invariant holds
    after [generate], whatever its outcome. *)
Lemma save_loop_keeps_instance (figures : list (string * Figure)) (w : World) :
  df (self (save_loop figures w).1) = df (self w) /\
  platform_stats (self (save_loop figures w).1) = platform_stats (self w).
Proof.
  revert w. induction figures as [|nf figures IH]; intros w; [by split|].
  rewrite save_loop_cons.
  destruct (write_image nf.2 (image_path nf.1)) as [data|]; [|by split].
  apply (IH {| self := with_image_paths (self w)
                         (image_paths (self w) ++ [image_path nf.1]);
               fs := <[image_path nf.1 := PngFile data]> (fs w) |}).
Qed.

Lemma generate_keeps_invariant (fmt : Format)
    (figures : list (string * Figure)) (now : datetime) (w : World) :
  wf (self w) -> wf (self (generate fmt figures now w).1).
Proof.
  unfold wf. intros Hwf.
  destruct (save_loop_keeps_instance figures
              {| self := with_image_paths (self w) []; fs := fs w |})
    as [_ Hst].
  assert (platform_stats (self (generate fmt figures now w).1) =
          platform_stats
            (self (save_loop figures
                     {| self := with_image_paths (self w) [];
                        fs := fs w |}).1)) as ->.
  { destruct fmt; unfold generate, generate_pdf, generate_word,
      save_current_figures; fold (save_loop figures);
      unfold mbind, M_bind, set_image_paths, get_self, lift, write_file,
        mret, M_ret;
      destruct (save_loop figures _) as [w1 [[]|e]]; cbn; try reflexivity.
    - destruct (Pdf.story (self w1)); reflexivity.
    - destruct (Word.document (self w1)); reflexivity. }
  rewrite Hst. exact Hwf.
Qed.

(** * The claims *)

(** C1: for every instance and every ordered mapping of figures, the PDF
    produced by [generate_pdf] and the Word document produced by
    [generate_word] on the same instance have the same parts in the same
    order (title, byline, the three section headings with their tables,
    then one image block per figure), and their platform-performance
    tables are equal cell by cell: same header, same rows in the same
    order, same formatted values. *)
Theorem pdf_word_parity (figures : list (string * Figure))
    (now_pdf now_word : datetime) (w : World) :
  wf (self w) ->
  Forall serializable figures ->
  exists w1 p1 f1 w2 p2 f2,
    generate_pdf figures now_pdf w = (w1, Return p1) /\
    fs w1 !! p1 = Some f1 /\
    generate_word figures now_word w1 = (w2, Return p2) /\
    fs w2 !! p2 = Some f2 /\
    outline f1 = outline f2 /\
    outline f1 = report_outline (figure_paths figures) /\
    platform_table f1 = platform_table f2 /\
    platform_table f1 = Some (rendered_table (platform_stats (self w))).
Proof.
  intros Hwf Hok.
  pose proof (generate_ok PDF figures now_pdf w Hwf Hok) as H1.
  pose proof (generate_ok WORD figures now_word
                (generated PDF figures now_pdf w)
                (generated_wf _ _ _ _ Hwf) Hok) as H2.
  cbn [generate] in H1, H2.
  eexists _, _, _, _, _, _.
  split; [exact H1|]. split; [apply lookup_generated|].
  split; [exact H2|]. split; [apply lookup_generated|].
  rewrite !outline_document_of, !platform_table_document_of.
  repeat split.
Qed.

Lemma sample_wf : wf (self Sample.world).
Proof. apply init_wf. Defined.

Lemma sample_figures_serializable : Forall serializable Sample.figures.
Proof. repeat constructor; eexists; reflexivity. Defined.

Lemma pdf_word_parity_witness :
  exists w1 p1 f1 w2 p2 f2,
    generate_pdf Sample.figures Sample.now Sample.world = (w1, Return p1) /\
    fs w1 !! p1 = Some f1 /\
    generate_word Sample.figures Sample.now w1 = (w2, Return p2) /\
    fs w2 !! p2 = Some f2 /\
    outline f1 = outline f2 /\
    outline f1 = report_outline (figure_paths Sample.figures) /\
    platform_table f1 = platform_table f2 /\
    platform_table f1 = Some (rendered_table (platform_stats (self Sample.world))).
Proof.
  apply (pdf_word_parity Sample.figures Sample.now Sample.now Sample.world).
  - apply init_wf.
  - repeat constructor; eexists; reflexivity.
Defined.

(** C2: whatever the mapping of figures, if writing the image of one of
    them fails, [generate_pdf] and [generate_word] both end with the
    rendering exception and the report files are exactly those from before
    the call: no document was created. Images written before the failing
    one stay in the temp directory. *)
Theorem failed_figure_aborts_generate (fmt : Format)
    (figures : list (string * Figure)) (now : datetime) (w : World) :
  Exists fails_to_serialize figures ->
  exists w',
    generate fmt figures now w = (w', Raise RenderingError) /\
    reports (fs w') = reports (fs w).
Proof.
  intros Hex.
  destruct (save_current_figures_fail figures w Hex) as (w' & Hrun & Hrep).
  exists w'. split; [|exact Hrep].
  destruct fmt; unfold generate, generate_pdf, generate_word;
    unfold mbind at 1, M_bind; rewrite Hrun; reflexivity.
Qed.

Lemma failed_figure_aborts_generate_witness :
  exists w',
    generate PDF Sample.figures_with_broken Sample.now Sample.world
    = (w', Raise RenderingError) /\
    reports (fs w') = reports (fs Sample.world).
Proof.
  apply (failed_figure_aborts_generate
           PDF Sample.figures_with_broken Sample.now Sample.world).
  apply Exists_cons_tl, Exists_cons_hd. reflexivity.
Defined.



(** C9: with an empty mapping of figures, [generate] succeeds in either
    format; the document has its Visualizations heading with nothing under
    it, and no image block at all. *)
Theorem empty_chart_set_is_valid (fmt : Format) (now : datetime) (w : World) :
  wf (self w) ->
  exists w' path f,
    generate fmt [] now w = (w', Return path) /\
    fs w' !! path = Some f /\
    SectionHeading "Visualizations" ∈ outline f /\
    visualizations_are f [] /\
    images f = [].
Proof.
  intros Hwf.
  exists (generated fmt [] now w), (report_path fmt now). eexists.
  split; [apply generate_ok; [exact Hwf|constructor]|].
  split; [apply lookup_generated|].
  split; [|split].
  - rewrite outline_document_of. unfold report_outline.
    apply elem_of_app. left. do 6 right. left.
  - apply (visualizations_document_of fmt).
  - apply (images_document_of fmt).
Qed.

Lemma empty_chart_set_is_valid_witness :
  exists w' path f,
    generate PDF [] Sample.now Sample.world = (w', Return path) /\
    fs w' !! path = Some f /\
    SectionHeading "Visualizations" ∈ outline f /\
    visualizations_are f [] /\
    images f = [].
Proof.
  apply (empty_chart_set_is_valid PDF Sample.now Sample.world).
  apply sample_wf.
Defined.




(** ** Text of a float *)

Lemma has_comma_app (a b : string) :
  has_comma (a +:+ b) = has_comma a || has_comma b.
Proof.
  unfold has_comma. induction a as [|c a IH]; [reflexivity|].
  change (String c a +:+ b) with (String c (a +:+ b)).
  cbn [list_ascii_of_string existsb].
  by rewrite IH, orb_assoc.
Qed.

Lemma has_comma_uint (u : Decimal.uint) :
  has_comma (NilEmpty.string_of_uint u) = false.
Proof. induction u; cbn; auto. Qed.

Lemma has_comma_str_nat (n : N) : has_comma (str_nat n) = false.
Proof.
  unfold str_nat, NilZero.string_of_uint.
  destruct (N.to_uint n) eqn:E; try reflexivity; rewrite <- E;
    apply has_comma_uint.
Qed.

Lemma digit_not_comma (d : Z) :
  0 <= d < 10 -> Ascii.eqb (digit d) "," = false.
Proof.
  intros Hd.
  assert (d = 0 \/ d = 1 \/ d = 2 \/ d = 3 \/ d = 4 \/
          d = 5 \/ d = 6 \/ d = 7 \/ d = 8 \/ d = 9) as Hcases by lia.
  repeat (destruct Hcases as [->|Hcases]; [reflexivity|]).
  subst d. reflexivity.
Qed.

(** [str] of a float never holds a thousands separator. *)
Lemma str_float_no_comma (h : Z) : has_comma (str_float h) = false.
Proof.
  unfold str_float.
  assert (0 <= Z.abs h mod 100 / 10 < 10) as H1
    by (Z.div_mod_to_equations; lia).
  assert (0 <= Z.abs h mod 100 mod 10 < 10) as H2
    by (Z.div_mod_to_equations; lia).
  rewrite !has_comma_app, has_comma_str_nat.
  destruct (h <? 0); destruct (Z.abs h mod 100 mod 10 =? 0);
    unfold has_comma; cbn; rewrite ?digit_not_comma; auto.
Qed.

Lemma str_f64_no_comma (x : F64) : has_comma (str_f64 x) = false.
Proof.
  destruct x as [h| | |[]]; try reflexivity. apply str_float_no_comma.
Qed.

(** The rows of the platform table, value by value. *)
Lemma rendered_rows_are_str (st : Frame) :
  wf_stats st ->
  Forall (fun r : string * list Scalar =>
            exists a b n,
              r.2 = [Float64 a; Float64 b; Int64 n] /\
              rendered_row r =
              [r.1; str_f64 a; str_f64 b; str_float (100 * n)])
         (rows st).
Proof.
  intros (_ & _ & Hrows). eapply Forall_impl; [exact Hrows|].
  intros [p row] (a & b & n & Hrow). cbn in Hrow. subst row.
  exists a, b, n. split; reflexivity.
Qed.

(** C4, counterexample: on the sample data (1235 orders on Zepto with the
    mean order value 1234.5) the platform table shows ["1234.5"] and
    ["1235.0"], not ["1,234.50"] and ["1235"] as the specification's
    formatting would. *)
Lemma platform_cells_not_in_spec_format :
  exists w' path f,
    generate PDF [] Sample.now Sample.world = (w', Return path) /\
    fs w' !! path = Some f /\
    platform_table f =
    Some [["Platform"; "Avg Order Value"; "Avg Delivery Time"; "Total Orders"];
          ["Swiggy"; "95.5"; "42.25"; "1.0"];
          ["Zepto"; "1234.5"; "30.0"; "1235.0"]] /\
    spec_rendered_table (platform_stats (self Sample.world)) =
    [["Platform"; "Avg Order Value"; "Avg Delivery Time"; "Total Orders"];
     ["Swiggy"; "95.50"; "42.25"; "1"];
     ["Zepto"; "1,234.50"; "30.00"; "1235"]] /\
    platform_table f <>
    Some (spec_rendered_table (platform_stats (self Sample.world))).
Proof.
  exists (generated PDF [] Sample.now Sample.world),
         (report_path PDF Sample.now).
  eexists.
  split; [apply generate_ok; [apply sample_wf|constructor]|].
  split; [apply lookup_generated|].
  rewrite platform_table_document_of.
  split; [vm_compute; reflexivity|].
  split; [vm_compute; reflexivity|].
  vm_compute. discriminate.
Qed.

(** C4, as amended: every currency or time value of the platform table
    is the [str] of the rounded float and nothing else: no thousands
    separator, no padding to two decimals, the same text whatever the
    locale.  The text of the count cell is left open here. *)
Theorem platform_means_are_str_of_float (fmt : Format)
    (figures : list (string * Figure)) (now : datetime) (w : World) :
  wf (self w) ->
  positional_stats (platform_stats (self w)) ->
  Forall serializable figures ->
  exists w' path f header body,
    generate fmt figures now w = (w', Return path) /\
    fs w' !! path = Some f /\
    platform_table f = Some (header :: body) /\
    Forall2 (fun (row : list string) (r : string * list Scalar) =>
               exists a b n count_text,
                 r.2 = [Float64 a; Float64 b; Int64 n] /\
                 row = [r.1; str_f64 a; str_f64 b; count_text] /\
                 has_comma (str_f64 a) = false /\
                 has_comma (str_f64 b) = false)
            body (rows (platform_stats (self w))).
Proof.
  intros Hwf _ Hok.
  exists (generated fmt figures now w), (report_path fmt now).
  eexists _, _, _.
  split; [by apply generate_ok|].
  split; [apply lookup_generated|].
  split; [apply platform_table_document_of|].
  cbn [platform_stats with_image_paths].
  pose proof (rendered_rows_are_str _ Hwf) as Hrows.
  induction Hrows as [|r l (a & b & n & Hr & Hrow) _ IH]; cbn;
    constructor; [|exact IH].
  exists a, b, n, (str_float (100 * n)). rewrite !str_f64_no_comma. auto.
Qed.

Lemma platform_means_are_str_of_float_witness :
  exists w' path f header body,
    generate WORD Sample.figures Sample.now Sample.world = (w', Return path) /\
    fs w' !! path = Some f /\
    platform_table f = Some (header :: body) /\
    Forall2 (fun (row : list string) (r : string * list Scalar) =>
               exists a b n count_text,
                 r.2 = [Float64 a; Float64 b; Int64 n] /\
                 row = [r.1; str_f64 a; str_f64 b; count_text] /\
                 has_comma (str_f64 a) = false /\
                 has_comma (str_f64 b) = false)
            body (rows (platform_stats (self Sample.world))).
Proof.
  apply (platform_means_are_str_of_float
           WORD Sample.figures Sample.now Sample.world).
  - apply sample_wf.
  - repeat constructor; cbn; lia.
  - apply sample_figures_serializable.
Defined.

(** C6, counterexample: the header of the PDF platform table of the sample
    run holds the index label and the three metrics, and no other column. *)
Lemma pdf_platform_table_has_no_variant_columns :
  exists w' path f header body,
    generate_pdf Sample.figures Sample.now Sample.world = (w', Return path) /\
    fs w' !! path = Some f /\
    platform_table f = Some (header :: body) /\
    header = ["Platform"; "Avg Order Value"; "Avg Delivery Time"; "Total Orders"] /\
    has_variant_column header = false.
Proof.
  exists (generated PDF Sample.figures Sample.now Sample.world),
         (report_path PDF Sample.now).
  eexists _, _, _.
  split; [apply (generate_ok PDF);
          [apply sample_wf|apply sample_figures_serializable]|].
  split; [apply lookup_generated|].
  split; [apply platform_table_document_of|].
  split; reflexivity.
Qed.

(** C6, as amended: in the PDF form as in the Word form, the columns of
    the platform-performance table are the platform, the mean order value,
    the mean delivery time and the order count, and no others. *)
Theorem platform_columns_are_the_three_metrics (fmt : Format)
    (figures : list (string * Figure)) (now : datetime) (w : World) :
  wf (self w) ->
  Forall serializable figures ->
  exists w' path f body,
    generate fmt figures now w = (w', Return path) /\
    fs w' !! path = Some f /\
    platform_table f = Some (base_columns :: body) /\
    has_variant_column base_columns = false.
Proof.
  intros Hwf Hok.
  exists (generated fmt figures now w), (report_path fmt now).
  eexists _, _.
  split; [by apply generate_ok|].
  split; [apply lookup_generated|].
  split; [|reflexivity].
  rewrite platform_table_document_of. unfold rendered_table.
  cbn [platform_stats with_image_paths].
  destruct Hwf as (-> & _). reflexivity.
Qed.

Lemma platform_columns_are_the_three_metrics_witness :
  exists w' path f body,
    generate PDF Sample.figures Sample.now Sample.world = (w', Return path) /\
    fs w' !! path = Some f /\
    platform_table f = Some (base_columns :: body) /\
    has_variant_column base_columns = false.
Proof.
  apply (platform_columns_are_the_three_metrics
           PDF Sample.figures Sample.now Sample.world).
  - apply sample_wf.
  - apply sample_figures_serializable.
Defined.

(** C7, counterexample: in the sample run, neither format puts the title
    of the box plot before its image; the image comes right after the
    section heading. *)
Lemma chart_title_is_not_emitted :
  exists w1 p1 f1 w2 p2 f2,
    generate_pdf Sample.figures Sample.now Sample.world = (w1, Return p1) /\
    fs w1 !! p1 = Some f1 /\
    generate_word Sample.figures Sample.now Sample.world = (w2, Return p2) /\
    fs w2 !! p2 = Some f2 /\
    images f1 = ["output/temp/boxplot.png"; "output/temp/scatter_plot.png"] /\
    images f2 = ["output/temp/boxplot.png"; "output/temp/scatter_plot.png"] /\
    has_titled_image f1 (title Sample.boxplot) "output/temp/boxplot.png" = false /\
    has_titled_image f2 (title Sample.boxplot) "output/temp/boxplot.png" = false /\
    has_titled_image f1 "Visualizations" "output/temp/boxplot.png" = true.
Proof.
  exists (generated PDF Sample.figures Sample.now Sample.world),
         (report_path PDF Sample.now).
  eexists.
  exists (generated WORD Sample.figures Sample.now Sample.world),
         (report_path WORD Sample.now).
  eexists.
  split; [apply (generate_ok PDF);
          [apply sample_wf|apply sample_figures_serializable]|].
  split; [apply lookup_generated|].
  split; [apply (generate_ok WORD);
          [apply sample_wf|apply sample_figures_serializable]|].
  split; [apply lookup_generated|].
  repeat split; vm_compute; reflexivity.
Qed.

(** C7, as amended: in either format the Visualizations section is one
    image block per figure of the call, in the order of the stored image
    paths, each followed by a spacer, and nothing else: no title block. *)
Theorem visualizations_are_the_images_in_order (fmt : Format)
    (figures : list (string * Figure)) (now : datetime) (w : World) :
  wf (self w) ->
  Forall serializable figures ->
  exists w' path f,
    generate fmt figures now w = (w', Return path) /\
    fs w' !! path = Some f /\
    image_paths (self w') = figure_paths figures /\
    visualizations_are f (figure_paths figures) /\
    images f = figure_paths figures /\
    length (images f) = length figures.
Proof.
  intros Hwf Hok.
  exists (generated fmt figures now w), (report_path fmt now). eexists.
  split; [by apply generate_ok|].
  split; [apply lookup_generated|].
  split; [reflexivity|].
  split; [apply (visualizations_document_of fmt)|].
  rewrite (images_document_of fmt). cbn. split; [reflexivity|].
  unfold figure_paths. by rewrite length_map.
Qed.

Lemma visualizations_are_the_images_in_order_witness :
  exists w' path f,
    generate WORD Sample.figures Sample.now Sample.world = (w', Return path) /\
    fs w' !! path = Some f /\
    image_paths (self w') = figure_paths Sample.figures /\
    visualizations_are f (figure_paths Sample.figures) /\
    images f = figure_paths Sample.figures /\
    length (images f) = length Sample.figures.
Proof.
  apply (visualizations_are_the_images_in_order
           WORD Sample.figures Sample.now Sample.world).
  - apply sample_wf.
  - apply sample_figures_serializable.
Defined.

(** ** Report names *)

Lemma app_String (c : ascii) (s t : string) :
  String c s +:+ t = String c (s +:+ t).
Proof. reflexivity. Qed.

Lemma app_Empty (t : string) : "" +:+ t = t.
Proof. reflexivity. Qed.

Lemma digit_inj (a b : Z) :
  0 <= a < 10 -> 0 <= b < 10 -> digit a = digit b -> a = b.
Proof.
  intros Ha Hb Heq. unfold digit in Heq.
  apply (f_equal N_of_ascii) in Heq.
  rewrite !N_ascii_embedding in Heq by lia. lia.
Qed.

Lemma two_digits_inj (n m : Z) :
  0 <= n < 100 -> 0 <= m < 100 -> two_digits n = two_digits m -> n = m.
Proof.
  intros Hn Hm Heq. unfold two_digits in Heq.
  injection Heq as H1 H2.
  apply digit_inj in H1; [|Z.div_mod_to_equations; lia..].
  apply digit_inj in H2; [|Z.div_mod_to_equations; lia..].
  Z.div_mod_to_equations; lia.
Qed.

Lemma four_digits_inj (n m : Z) :
  0 <= n < 10000 -> 0 <= m < 10000 -> four_digits n = four_digits m -> n = m.
Proof.
  intros Hn Hm Heq. unfold four_digits, two_digits in Heq.
  rewrite ?app_String, ?app_Empty in Heq. injection Heq as H1 H2 H3 H4.
  apply digit_inj in H1; [|Z.div_mod_to_equations; lia..].
  apply digit_inj in H2; [|Z.div_mod_to_equations; lia..].
  apply digit_inj in H3; [|Z.div_mod_to_equations; lia..].
  apply digit_inj in H4; [|Z.div_mod_to_equations; lia..].
  Z.div_mod_to_equations; lia.
Qed.

Lemma strftime_length (t : datetime) : String.length (strftime t) = 15%nat.
Proof. reflexivity. Qed.

(** Two report names are equal only for the same format and the same
    second. *)
Lemma report_path_inj (fmt fmt' : Format) (t t' : datetime) :
  valid_datetime t -> valid_datetime t' ->
  report_path fmt t = report_path fmt' t' -> fmt = fmt' /\ t = t'.
Proof.
  intros (Hy & Hmo & Hd & Hh & Hmi & Hs) (Hy' & Hmo' & Hd' & Hh' & Hmi' & Hs').
  unfold report_path. intros Heq. apply String.app_inj in Heq.
  destruct t as [y mo d h mi s], t' as [y' mo' d' h' mi' s']. cbn in *.
  unfold strftime in Heq. cbn [year month day hour minute second] in Heq.
  assert (four_digits y = four_digits y' /\ two_digits mo = two_digits mo' /\
          two_digits d = two_digits d' /\ two_digits h = two_digits h' /\
          two_digits mi = two_digits mi' /\ two_digits s = two_digits s' /\
          extension fmt = extension fmt') as (Ey & Emo & Ed & Eh & Emi & Es & Ee).
  { unfold four_digits, two_digits in *.
    rewrite ?app_String, ?app_Empty in Heq. rewrite ?app_String, ?app_Empty.
    injection Heq. intros Hext; intros.
    repeat split; try congruence. exact Hext. }
  apply four_digits_inj in Ey; [|lia..].
  apply two_digits_inj in Emo; [|lia..].
  apply two_digits_inj in Ed; [|lia..].
  apply two_digits_inj in Eh; [|lia..].
  apply two_digits_inj in Emi; [|lia..].
  apply two_digits_inj in Es; [|lia..].
  subst. split; [|reflexivity].
  destruct fmt, fmt'; try reflexivity; discriminate.
Qed.

Lemma reports_generated (fmt : Format) (figures : list (string * Figure))
    (now : datetime) (w : World) :
  reports (fs (generated fmt figures now w)) =
  <[report_path fmt now :=
      document_of fmt (with_image_paths (self w) (figure_paths figures))]>
    (reports (fs w)).
Proof.
  unfold generated. cbn [fs]. unfold reports at 1.
  rewrite map_filter_insert_True by apply report_path_in_reports.
  fold (reports (saved_fs figures (fs w))). by rewrite reports_saved_fs.
Qed.

(** A later call touches no report but its own. *)
Lemma generated_other_report (fmt : Format) (figures : list (string * Figure))
    (now : datetime) (w : World) (p : string) :
  in_reports_dir p = true -> p <> report_path fmt now ->
  fs (generated fmt figures now w) !! p = fs w !! p.
Proof.
  intros Hp Hne. unfold generated. cbn [fs].
  rewrite lookup_insert_ne by congruence.
  apply saved_fs_other. intros Hin.
  apply list_elem_of_fmap in Hin as (nf & -> & _).
  by rewrite image_path_not_report in Hp.
Qed.

(** C5, counterexample: two calls of [generate_pdf] in the same second,
    the first with no figure and the second with two; both return the
    same path, and after the second call the file no longer holds the
    first document. *)
Lemma same_second_overwrites_first_report :
  exists w1 p1 f1 w2 p2,
    generate_pdf [] Sample.now Sample.world = (w1, Return p1) /\
    fs w1 !! p1 = Some f1 /\
    generate_pdf Sample.figures Sample.now w1 = (w2, Return p2) /\
    p2 = p1 /\
    fs w2 !! p1 <> Some f1.
Proof.
  exists (generated PDF [] Sample.now Sample.world),
         (report_path PDF Sample.now).
  eexists.
  exists (generated PDF Sample.figures Sample.now
            (generated PDF [] Sample.now Sample.world)),
         (report_path PDF Sample.now).
  split; [apply (generate_ok PDF); [apply sample_wf|constructor]|].
  split; [apply lookup_generated|].
  split; [apply (generate_ok PDF);
          [apply sample_wf|apply sample_figures_serializable]|].
  split; [reflexivity|].
  rewrite lookup_generated. intros Heq.
  apply (f_equal (fun o : option File => images <$> o)) in Heq.
  unfold fmap, option_fmap, option_map in Heq.
  rewrite !(images_document_of PDF) in Heq. discriminate.
Qed.

(** C5, as amended: two calls in the same second and the same format
    return the same path, and after the second call the file holds the
    document of the second call; the report of a call stays as it was
    through a later call made in another second. *)
Theorem same_second_report_is_replaced (fmt : Format)
    (figures1 figures2 : list (string * Figure)) (now : datetime) (w : World) :
  wf (self w) ->
  Forall serializable figures1 ->
  Forall serializable figures2 ->
  valid_datetime now ->
  exists w1 p1 f1,
    generate fmt figures1 now w = (w1, Return p1) /\
    fs w1 !! p1 = Some f1 /\
    (exists w2 f2,
       generate fmt figures2 now w1 = (w2, Return p1) /\
       fs w2 !! p1 = Some f2 /\
       images f2 = figure_paths figures2) /\
    (forall later, valid_datetime later -> later <> now ->
       exists w2 p2,
         generate fmt figures2 later w1 = (w2, Return p2) /\
         p2 <> p1 /\
         fs w2 !! p1 = Some f1).
Proof.
  intros Hwf Hok1 Hok2 Hnow.
  exists (generated fmt figures1 now w), (report_path fmt now). eexists.
  split; [by apply generate_ok|].
  split; [apply lookup_generated|].
  split.
  - exists (generated fmt figures2 now (generated fmt figures1 now w)).
    eexists. split; [by apply generate_ok|].
    split; [apply lookup_generated|].
    apply (images_document_of fmt).
  - intros later Hlater Hne.
    exists (generated fmt figures2 later (generated fmt figures1 now w)),
           (report_path fmt later).
    split; [by apply generate_ok|].
    assert (report_path fmt now <> report_path fmt later) as Hpath.
    { intros Heq. apply report_path_inj in Heq as [_ Heq]; auto. }
    split; [congruence|].
    rewrite generated_other_report;
      [apply lookup_generated|apply report_path_in_reports|exact Hpath].
Qed.

Lemma sample_now_valid : valid_datetime Sample.now.
Proof. unfold valid_datetime. cbn. lia. Defined.

Lemma same_second_report_is_replaced_witness :
  exists w1 p1 f1,
    generate PDF [] Sample.now Sample.world = (w1, Return p1) /\
    fs w1 !! p1 = Some f1 /\
    (exists w2 f2,
       generate PDF Sample.figures Sample.now w1 = (w2, Return p1) /\
       fs w2 !! p1 = Some f2 /\
       images f2 = figure_paths Sample.figures) /\
    (forall later, valid_datetime later -> later <> Sample.now ->
       exists w2 p2,
         generate PDF Sample.figures later w1 = (w2, Return p2) /\
         p2 <> p1 /\
         fs w2 !! p1 = Some f1).
Proof.
  apply (same_second_report_is_replaced
           PDF [] Sample.figures Sample.now Sample.world).
  - apply sample_wf.
  - constructor.
  - apply sample_figures_serializable.
  - apply sample_now_valid.
Defined.

(** C8, counterexample: the second of two successful calls made in the
    same second returns a path that already names a report; the reports
    directory holds the same names after it as before, so the call
    created no new file. *)
Lemma second_call_creates_no_new_file :
  exists w1 p1 w2 p2,
    generate_pdf Sample.figures Sample.now Sample.world = (w1, Return p1) /\
    generate_pdf Sample.figures Sample.now w1 = (w2, Return p2) /\
    p2 ∈ dom (reports (fs w1)) /\
    dom (reports (fs w2)) = dom (reports (fs w1)) /\
    size (reports (fs w2)) = size (reports (fs w1)).
Proof.
  exists (generated PDF Sample.figures Sample.now Sample.world),
         (report_path PDF Sample.now).
  exists (generated PDF Sample.figures Sample.now
            (generated PDF Sample.figures Sample.now Sample.world)),
         (report_path PDF Sample.now).
  split; [apply (generate_ok PDF);
          [apply sample_wf|apply sample_figures_serializable]|].
  split; [apply (generate_ok PDF);
          [apply sample_wf|apply sample_figures_serializable]|].
  assert (report_path PDF Sample.now
          ∈ dom (reports (fs (generated PDF Sample.figures Sample.now
                                Sample.world)))) as Hin.
  { rewrite reports_generated, dom_insert_L. set_solver. }
  split; [exact Hin|].
  assert (dom (reports (fs (generated PDF Sample.figures Sample.now
                              (generated PDF Sample.figures Sample.now
                                 Sample.world))))
          = dom (reports (fs (generated PDF Sample.figures Sample.now
                                Sample.world)))) as Hdom.
  { rewrite (reports_generated PDF Sample.figures Sample.now
               (generated PDF Sample.figures Sample.now Sample.world)).
    rewrite dom_insert_L. set_solver. }
  split; [exact Hdom|].
  by rewrite <- !size_dom, Hdom.
Qed.

(** C8, as amended: a successful call returns the path
    [output/reports/ecommerce_analysis_report_<YYYYMMDD_HHMMSS>] with the
    extension of the format; after it the reports directory is what it was
    with that one file written: the file exists and holds the document, no
    other report changed, and the file is new when no report had that
    name. *)
Theorem generate_writes_one_report (fmt : Format)
    (figures : list (string * Figure)) (now : datetime) (w : World) :
  wf (self w) ->
  Forall serializable figures ->
  exists w' path f,
    generate fmt figures now w = (w', Return path) /\
    path = "output/reports/ecommerce_analysis_report_" +:+ strftime now
           +:+ extension fmt /\
    String.length (strftime now) = 15%nat /\
    in_reports_dir path = true /\
    fs w' !! path = Some f /\
    reports (fs w') = <[path := f]> (reports (fs w)) /\
    (fs w !! path = None ->
     (path ∉ dom (reports (fs w))) /\
     dom (reports (fs w')) = {[path]} ∪ dom (reports (fs w)) /\
     size (reports (fs w')) = S (size (reports (fs w)))).
Proof.
  intros Hwf Hok.
  exists (generated fmt figures now w), (report_path fmt now). eexists.
  split; [by apply generate_ok|].
  split; [reflexivity|].
  split; [apply strftime_length|].
  split; [apply report_path_in_reports|].
  split; [apply lookup_generated|].
  split; [apply reports_generated|].
  intros Hnew.
  assert (reports (fs w) !! report_path fmt now = None) as Hnone.
  { unfold reports. apply map_lookup_filter_None. left. exact Hnew. }
  split; [by apply not_elem_of_dom|].
  rewrite reports_generated. split; [apply dom_insert_L|].
  by apply map_size_insert_None.
Qed.

Lemma generate_writes_one_report_witness :
  exists w' path f,
    generate WORD Sample.figures Sample.now Sample.world = (w', Return path) /\
    path = "output/reports/ecommerce_analysis_report_" +:+ strftime Sample.now
           +:+ extension WORD /\
    String.length (strftime Sample.now) = 15%nat /\
    in_reports_dir path = true /\
    fs w' !! path = Some f /\
    reports (fs w') = <[path := f]> (reports (fs Sample.world)) /\
    (fs Sample.world !! path = None ->
     (path ∉ dom (reports (fs Sample.world))) /\
     dom (reports (fs w')) = {[path]} ∪ dom (reports (fs Sample.world)) /\
     size (reports (fs w')) = S (size (reports (fs Sample.world)))).
Proof.
  apply (generate_writes_one_report WORD Sample.figures Sample.now Sample.world).
  - apply sample_wf.
  - apply sample_figures_serializable.
Defined.

(** * Further properties *)

(** ** What [__init__] computes *)

Lemma index_init (mean_round2 : list float -> F64) (d : DataFrame) :
  index (platform_stats (__init__ mean_round2 d)) =
  merge_sort String.le (unique (omap platform d)).
Proof.
  unfold index, __init__, set_columns, agg_platform. cbn.
  rewrite map_map. cbn. apply groupby_keys.
Qed.

Lemma elem_of_unique {A : Type} `{EqDecision A} (l : list A) (x : A) :
  x ∈ unique l <-> x ∈ l.
Proof.
  unfold unique. destruct (unique_from_spec [] l) as [_ Hmem].
  rewrite Hmem. rewrite elem_of_nil. tauto.
Qed.

Lemma platform_index_sorted_distinct_aux (mean_round2 : list float -> F64)
    (d : DataFrame) :
  NoDup (index (platform_stats (__init__ mean_round2 d))) /\
  forall p, p ∈ index (platform_stats (__init__ mean_round2 d)) <->
            exists o, o ∈ d /\ platform o = Some p.
Proof.
  rewrite index_init. split.
  - rewrite merge_sort_Permutation. apply NoDup_unique.
  - intros p. rewrite merge_sort_Permutation, elem_of_unique.
    apply list_elem_of_omap.
Qed.

(** X1: the index of the platform statistics lists the platforms of the
    data, each once, in ascending order of their names. *)
Theorem platform_index_sorted_distinct (mean_round2 : list float -> F64)
    (d : DataFrame) :
  let idx := index (platform_stats (__init__ mean_round2 d)) in
  Sorted String.le idx /\
  NoDup idx /\
  forall p, p ∈ idx <-> exists o, o ∈ d /\ platform o = Some p.
Proof.
  cbn zeta.
  destruct (platform_index_sorted_distinct_aux mean_round2 d) as (Hnd & Hmem).
  split; [|split; [exact Hnd|exact Hmem]].
  rewrite index_init. apply Sorted_merge_sort. apply _.
Qed.

Lemma order_counts_init (mean_round2 : list float -> F64) (d : DataFrame) :
  order_counts (platform_stats (__init__ mean_round2 d)) =
  map (fun p => count (map order_id (orders_of p d)))
      (index (platform_stats (__init__ mean_round2 d))).
Proof.
  rewrite index_init.
  unfold order_counts, __init__, set_columns, agg_platform, groupby. cbn.
  induction (merge_sort String.le (unique (omap platform d))) as [|k ks IH];
    [reflexivity|].
  cbn. f_equal. exact IH.
Qed.

Lemma sumZ_cons (x : Z) (l : list Z) : sumZ (x :: l) = x + sumZ l.
Proof. reflexivity. Qed.

Lemma sum_indicator_absent (a : option string) (c : Z) (ks : list string) :
  (forall k, a = Some k -> k ∉ ks) ->
  sumZ (map (fun k => if decide (a = Some k) then c else 0) ks) = 0.
Proof.
  induction ks as [|k ks IH]; intros Ha; [reflexivity|].
  cbn [map]. rewrite sumZ_cons, IH.
  - destruct (decide (a = Some k)) as [E|_]; [|reflexivity].
    destruct (Ha k E). left.
  - intros k' E Hin. apply (Ha k' E). by right.
Qed.

Lemma sum_indicator (a : string) (c : Z) (ks : list string) :
  NoDup ks -> a ∈ ks ->
  sumZ (map (fun k => if decide (Some a = Some k) then c else 0) ks) = c.
Proof.
  induction 1 as [|k ks Hk Hnd IH]; intros Ha.
  - by apply elem_of_nil in Ha.
  - cbn [map]. rewrite sumZ_cons.
    apply elem_of_cons in Ha as [->|Ha].
    + rewrite decide_True by reflexivity.
      rewrite sum_indicator_absent; [lia|].
      by intros k' [= <-].
    + rewrite IH by exact Ha.
      destruct (decide (Some a = Some k)) as [[= ->]|Hne];
        [contradiction|reflexivity].
Qed.

Lemma orders_of_cons (p : string) (o : Order) (d : DataFrame) :
  orders_of p (o :: d) =
  if decide (platform o = Some p) then o :: orders_of p d else orders_of p d.
Proof. reflexivity. Qed.

Lemma counted_orders_cons (o : Order) (d : DataFrame) :
  counted_orders (o :: d) =
  if decide (counted o) then o :: counted_orders d else counted_orders d.
Proof. reflexivity. Qed.

(** What one more order adds to the count of a platform. *)
Lemma count_orders_of_cons (p : string) (o : Order) (d : DataFrame) :
  count (map order_id (orders_of p (o :: d))) =
  (if decide (platform o = Some p)
   then if decide (is_Some (order_id o)) then 1 else 0
   else 0)
  + count (map order_id (orders_of p d)).
Proof.
  rewrite orders_of_cons. unfold count.
  destruct (decide (platform o = Some p)); [|lia].
  cbn [map]. rewrite filter_cons.
  destruct (decide (is_Some (order_id o))); cbn [length]; lia.
Qed.

(** The groups of a list of keys that covers the data split the orders
    that have a platform; their counts add up to the orders that have an
    id as well. *)
Lemma groups_partition (ks : list string) (d : DataFrame) :
  NoDup ks ->
  (forall o p, o ∈ d -> platform o = Some p -> p ∈ ks) ->
  sumZ (map (fun p => count (map order_id (orders_of p d))) ks) =
  Z.of_nat (length (counted_orders d)).
Proof.
  intros Hnd. induction d as [|o d IH]; intros Hcover.
  - clear. induction ks as [|k ks IHk]; [reflexivity|].
    cbn [map]. rewrite sumZ_cons, IHk. reflexivity.
  - set (c := if decide (is_Some (order_id o)) then 1 else 0).
    assert (forall ks',
              sumZ (map (fun p => count (map order_id (orders_of p (o :: d))))
                        ks')
              = sumZ (map (fun k => if decide (platform o = Some k)
                                    then c else 0) ks')
                + sumZ (map (fun p => count (map order_id (orders_of p d)))
                            ks'))
      as Hsplit.
    { induction ks' as [|k ks' IHk]; [reflexivity|].
      cbn [map]. rewrite !sumZ_cons, IHk, count_orders_of_cons.
      fold c. lia. }
    rewrite Hsplit, IH by (intros o' p Ho'; apply Hcover; by right).
    clear Hsplit IH. rewrite counted_orders_cons.
    destruct (decide (counted o)) as [[[a Hp] Hid]|Hn].
    + rewrite Hp.
      rewrite sum_indicator;
        [|exact Hnd|apply (Hcover o a); [by left|exact Hp]].
      unfold c. rewrite decide_True by exact Hid. cbn [length]. lia.
    + destruct (platform o) as [a|] eqn:Hp.
      * rewrite sum_indicator;
          [|exact Hnd|apply (Hcover o a); [by left|exact Hp]].
        unfold c. rewrite decide_False; [lia|].
        intros Hid. apply Hn. split; [rewrite Hp; by eexists|exact Hid].
      * rewrite sum_indicator_absent by discriminate. lia.
Qed.

Lemma counted_orders_all (d : DataFrame) :
  Forall counted d -> counted_orders d = d.
Proof.
  induction 1 as [|o d Ho _ IH]; [reflexivity|].
  by rewrite counted_orders_cons, decide_True, IH.
Qed.

(** X2: the "Total Orders" column holds, for each platform of the
    index, the number of orders on that platform that have an id; the
    counts add up to the number of orders that have both a platform and an
    id.  When no order lacks either, every count is at least one and the
    counts add up to the number of orders. *)
Theorem total_orders_column_counts (mean_round2 : list float -> F64)
    (d : DataFrame) :
  let st := platform_stats (__init__ mean_round2 d) in
  order_counts st =
    map (fun p => count (map order_id (orders_of p d))) (index st) /\
  sumZ (order_counts st) = Z.of_nat (length (counted_orders d)) /\
  (Forall counted d ->
   Forall (fun n => 1 <= n) (order_counts st) /\
   sumZ (order_counts st) = Z.of_nat (length d)).
Proof.
  cbn zeta.
  destruct (platform_index_sorted_distinct_aux mean_round2 d)
    as (Hnd & Hmem).
  rewrite order_counts_init. split; [reflexivity|].
  assert (sumZ (map (fun p => count (map order_id (orders_of p d)))
                    (index (platform_stats (__init__ mean_round2 d)))) =
          Z.of_nat (length (counted_orders d))) as Hsum.
  { apply groups_partition; [exact Hnd|].
    intros o p Ho Hp. apply Hmem. eauto. }
  split; [exact Hsum|].
  intros Hall. split.
  - apply Forall_forall. intros n Hn.
    apply list_elem_of_fmap in Hn as (p & -> & Hp).
    apply Hmem in Hp as (o & Ho & Hpo).
    assert (order_id o ∈ filter is_Some (map order_id (orders_of p d)))
      as Hin.
    { apply list_elem_of_filter. split.
      - rewrite Forall_forall in Hall. apply (Hall o Ho).
      - apply list_elem_of_fmap. exists o. split; [reflexivity|].
        unfold orders_of. apply list_elem_of_filter. auto. }
    unfold count.
    destruct (filter is_Some (map order_id (orders_of p d)));
      [by apply elem_of_nil in Hin|cbn [length]; lia].
  - rewrite Hsum. by rewrite (counted_orders_all _ Hall).
Qed.

Lemma sample_orders_counted : Forall counted Sample.orders.
Proof.
  apply Forall_app. split.
  - apply Forall_forall. intros o Ho.
    apply list_elem_of_fmap in Ho as (i & -> & _).
    split; eexists; reflexivity.
  - repeat constructor; eexists; reflexivity.
Defined.

Lemma total_orders_column_counts_witness :
  let st := platform_stats (__init__ Sample.mean Sample.orders) in
  Forall (fun n => 1 <= n) (order_counts st) /\
  sumZ (order_counts st) = Z.of_nat (length Sample.orders).
Proof.
  apply (total_orders_column_counts Sample.mean Sample.orders).
  apply sample_orders_counted.
Defined.

(** On data with gaps the counts skip the order without an id and the
    order without a platform: two of four orders are counted, and the
    overview lists three platforms for a table of two. *)
Example counts_with_gaps :
  let s := __init__ Sample.mean Cases.orders_with_gaps in
  index (platform_stats s) = ["Swiggy"; "Zepto"] /\
  order_counts (platform_stats s) = [1; 1] /\
  total_orders_text s = "4" /\
  platform_count_text s = "3".
Proof. vm_compute. repeat split. Qed.

(** ** The overview of the generated document *)

Lemma overview_table_document_of (fmt : Format) (s : ReportGenerator) :
  overview_table (document_of fmt s) =
  Some match fmt with
       | PDF => Pdf.overview_data s
       | WORD => ["Metric"; "Value"] :: Pdf.overview_data s
       end.
Proof. destruct fmt; reflexivity. Qed.

Lemma instance_wf (mean_round2 : list float -> F64) (d : DataFrame)
    (paths : list string) :
  wf (instance mean_round2 d paths).
Proof. apply (init_wf mean_round2 d). Qed.

Lemma rows_length_instance (mean_round2 : list float -> F64) (d : DataFrame)
    (paths : list string) :
  length (rows (platform_stats (instance mean_round2 d paths))) =
  length (unique (omap platform d)).
Proof.
  pose proof (index_init mean_round2 d) as H.
  apply (f_equal length) in H. unfold index in H.
  rewrite length_map, merge_sort_Permutation in H. exact H.
Qed.

(** [unique()] lists the values [groupby] keeps, and the missing value
    besides when it occurs. *)
Lemma unique_with_missing {A B : Type} `{EqDecision B} (f : A -> option B)
    (l : list A) :
  length (unique (map f l)) =
  (length (unique (omap f l)) +
   if decide (None ∈ map f l) then 1 else 0)%nat.
Proof.
  assert (NoDup (Some <$> unique (omap f l))) as Hnd.
  { apply NoDup_fmap_2; [apply _|apply NoDup_unique]. }
  assert (forall y, Some y ∈ map f l <-> Some y ∈ Some <$> unique (omap f l))
    as Hsome.
  { intros y. rewrite list_elem_of_fmap. split.
    - intros Hin. exists y. split; [reflexivity|].
      apply elem_of_unique, list_elem_of_omap.
      apply list_elem_of_fmap in Hin as (x & Hx & Hin). eauto.
    - intros (y' & [= <-] & Hin).
      apply elem_of_unique, list_elem_of_omap in Hin as (x & Hin & Hx).
      apply list_elem_of_fmap. eauto. }
  assert (None ∉ Some <$> unique (omap f l)) as Hnone.
  { intros Hin. apply list_elem_of_fmap in Hin as (y & Hy & _).
    discriminate. }
  destruct (decide (None ∈ map f l)) as [Hin|Hnin].
  - assert (unique (map f l) ≡ₚ None :: (Some <$> unique (omap f l))) as Hp.
    { apply NoDup_Permutation.
      - apply NoDup_unique.
      - by constructor.
      - intros [y|]; rewrite elem_of_unique, elem_of_cons.
        + rewrite Hsome. split; [by right|]. by intros [?|?].
        + split; [by left|]. by intros _. }
    rewrite Hp. cbn [length]. rewrite length_fmap. lia.
  - assert (unique (map f l) ≡ₚ Some <$> unique (omap f l)) as Hp.
    { apply NoDup_Permutation.
      - apply NoDup_unique.
      - exact Hnd.
      - intros [y|]; rewrite elem_of_unique.
        + apply Hsome.
        + split; [contradiction|]. intros H. by destruct (Hnone H). }
    rewrite Hp, length_fmap. lia.
Qed.

(** X3: in the generated document of either format, the number the
    overview gives for "Number of Platforms" is the number of data rows of
    the platform-performance table, plus one when an order of the data
    has no platform: [unique()] counts the missing value, which has no row
    in the table. *)
Theorem overview_platform_count_matches_table
    (mean_round2 : list float -> F64) (d : DataFrame) (paths : list string)
    (files : gmap string File) (fmt : Format)
    (figures : list (string * Figure)) (now : datetime) :
  Forall serializable figures ->
  exists w' path f ov header body,
    generate fmt figures now
      {| self := instance mean_round2 d paths; fs := files |}
    = (w', Return path) /\
    fs w' !! path = Some f /\
    overview_table f = Some ov /\
    platform_table f = Some (header :: body) /\
    ["Number of Platforms";
     str_nat (N.of_nat (length body + missing_platform d))] ∈ ov.
Proof.
  intros Hok.
  set (w := {| self := instance mean_round2 d paths; fs := files |}).
  exists (generated fmt figures now w), (report_path fmt now).
  eexists _, _, _, _.
  split; [apply generate_ok; [apply instance_wf|exact Hok]|].
  split; [apply lookup_generated|].
  split; [apply overview_table_document_of|].
  split; [apply platform_table_document_of|].
  cbn [platform_stats with_image_paths].
  rewrite length_map.
  change (platform_stats (self w))
    with (platform_stats (instance mean_round2 d paths)).
  rewrite rows_length_instance. unfold missing_platform.
  rewrite <- unique_with_missing.
  destruct fmt; unfold Pdf.overview_data, platform_count_text;
    cbn [df with_image_paths self w instance __init__].
  - right. left.
  - right. right. left.
Qed.

Lemma overview_platform_count_matches_table_witness :
  exists w' path f ov header body,
    generate PDF Sample.figures Sample.now
      {| self := instance Sample.mean Cases.orders_with_gaps []; fs := ∅ |}
    = (w', Return path) /\
    fs w' !! path = Some f /\
    overview_table f = Some ov /\
    platform_table f = Some (header :: body) /\
    ["Number of Platforms";
     str_nat (N.of_nat (length body + missing_platform Cases.orders_with_gaps))]
    ∈ ov.
Proof.
  apply (overview_platform_count_matches_table
           Sample.mean Cases.orders_with_gaps [] ∅ PDF Sample.figures
           Sample.now).
  apply sample_figures_serializable.
Defined.

(** X4: the overview table of the PDF has three rows, the number of
    orders, of platforms and of product categories in that order; the
    overview table of the Word document has the same three rows under a
    header row "Metric", "Value" that the PDF does not have. *)
Theorem word_overview_has_a_header_row (figures : list (string * Figure))
    (now_pdf now_word : datetime) (w : World) :
  wf (self w) ->
  Forall serializable figures ->
  exists w1 p1 f1 w2 p2 f2 ov,
    generate_pdf figures now_pdf w = (w1, Return p1) /\
    fs w1 !! p1 = Some f1 /\
    generate_word figures now_word w1 = (w2, Return p2) /\
    fs w2 !! p2 = Some f2 /\
    overview_table f1 = Some ov /\
    overview_table f2 = Some (["Metric"; "Value"] :: ov) /\
    ov = [["Total Orders";
           format_thousands (N.of_nat (length (df (self w))))];
          ["Number of Platforms";
           str_nat (N.of_nat (length (unique (map platform (df (self w))))))];
          ["Number of Product Categories";
           str_nat (N.of_nat
                      (length (unique (map product_category (df (self w))))))]].
Proof.
  intros Hwf Hok.
  pose proof (generate_ok PDF figures now_pdf w Hwf Hok) as H1.
  pose proof (generate_ok WORD figures now_word
                (generated PDF figures now_pdf w)
                (generated_wf _ _ _ _ Hwf) Hok) as H2.
  cbn [generate] in H1, H2.
  eexists _, _, _, _, _, _, _.
  split; [exact H1|]. split; [apply lookup_generated|].
  split; [exact H2|]. split; [apply lookup_generated|].
  rewrite !overview_table_document_of.
  split; [reflexivity|]. split; reflexivity.
Qed.

Lemma word_overview_has_a_header_row_witness :
  exists w1 p1 f1 w2 p2 f2 ov,
    generate_pdf Sample.figures Sample.now Sample.world = (w1, Return p1) /\
    fs w1 !! p1 = Some f1 /\
    generate_word Sample.figures Sample.now w1 = (w2, Return p2) /\
    fs w2 !! p2 = Some f2 /\
    overview_table f1 = Some ov /\
    overview_table f2 = Some (["Metric"; "Value"] :: ov) /\
    ov = [["Total Orders";
           format_thousands (N.of_nat (length (df (self Sample.world))))];
          ["Number of Platforms";
           str_nat (N.of_nat
                      (length (unique (map platform (df (self Sample.world))))))];
          ["Number of Product Categories";
           str_nat (N.of_nat
                      (length (unique (map product_category
                                         (df (self Sample.world))))))]].
Proof.
  apply (word_overview_has_a_header_row
           Sample.figures Sample.now Sample.now Sample.world).
  - apply sample_wf.
  - apply sample_figures_serializable.
Defined.

(** ** The thousands separators *)

Lemma comma_free_chars (s : string) :
  has_comma s = false ->
  Forall (fun c => Ascii.eqb c "," = false) (list_ascii_of_string s).
Proof.
  unfold has_comma. induction (list_ascii_of_string s) as [|c l IH]; cbn.
  - constructor.
  - intros H. apply orb_false_iff in H as [Hc Hl]. constructor; auto.
Qed.

Lemma filter_comma_free (l : list ascii) :
  Forall (fun c => Ascii.eqb c "," = false) l ->
  List.filter (fun c => negb (Ascii.eqb c ",")) l = l.
Proof.
  induction 1 as [|c l Hc _ IH]; [reflexivity|].
  cbn. rewrite Hc. cbn. by rewrite IH.
Qed.

Lemma filter_group3 (n : nat) :
  forall l, (length l <= n)%nat ->
    Forall (fun c => Ascii.eqb c "," = false) l ->
    List.filter (fun c => negb (Ascii.eqb c ",")) (group3 l) = l.
Proof.
  induction n as [|n IH]; intros l Hlen Hfree.
  - destruct l; [reflexivity|cbn in Hlen; lia].
  - destruct l as [|a [|b [|c [|d rest]]]];
      try (cbn [group3]; by apply filter_comma_free).
    change (group3 (a :: b :: c :: d :: rest))
      with (a :: b :: c :: ","%char :: group3 (d :: rest)).
    inversion Hfree as [|? ? Ha Hfree1]; subst.
    inversion Hfree1 as [|? ? Hb Hfree2]; subst.
    inversion Hfree2 as [|? ? Hc Hfree3]; subst.
    cbn [List.filter]. rewrite Ha, Hb, Hc. cbn [negb].
    change (negb (Ascii.eqb "," ",")) with false. cbn iota.
    rewrite IH; [reflexivity| cbn in *; lia | exact Hfree3].
Qed.

(** X5: the text of "Total Orders" is the decimal text of the number of
    orders with separators added and nothing else changed: removing the
    commas gives [str(len(df))] back. *)
Theorem total_orders_text_without_commas (s : ReportGenerator) :
  strip_commas (total_orders_text s) = str_nat (N.of_nat (length (df s))).
Proof.
  unfold total_orders_text, format_thousands, strip_commas.
  rewrite list_ascii_of_string_of_list_ascii.
  rewrite List.filter_rev.
  rewrite (filter_group3 _ _ (le_n _)).
  - by rewrite rev_involutive, string_of_list_ascii_of_string.
  - apply Forall_rev, comma_free_chars, has_comma_str_nat.
Qed.

(** ** What a call leaves behind *)

(** X6: when the image of a figure cannot be written, the call stops
    there with the rendering exception: the images of the figures before
    it have been written and stay in place, the stored path list holds
    their paths only, and the figures after it are not touched. *)
Theorem failing_figure_keeps_earlier_images (fmt : Format)
    (pre post : list (string * Figure)) (nf : string * Figure)
    (now : datetime) (w : World) :
  Forall serializable pre ->
  fails_to_serialize nf ->
  generate fmt (pre ++ nf :: post) now w =
  ({| self := with_image_paths (self w) (figure_paths pre);
      fs := saved_fs pre (fs w) |}, Raise RenderingError).
Proof.
  intros Hpre Hnf.
  destruct fmt; unfold generate, generate_pdf, generate_word,
    save_current_figures; fold (save_loop (pre ++ nf :: post));
    unfold mbind at 1, M_bind; unfold mbind at 1, M_bind;
    unfold set_image_paths;
    rewrite (save_loop_app_fail pre post nf Hpre Hnf); reflexivity.
Qed.

Lemma failing_figure_keeps_earlier_images_witness :
  generate WORD ([("boxplot", Sample.boxplot)]
                 ++ ("correlation_matrix", Sample.broken)
                 :: [("scatter_plot", Sample.scatter)])
    Sample.now Sample.world =
  ({| self := with_image_paths (self Sample.world)
                (figure_paths [("boxplot", Sample.boxplot)]);
      fs := saved_fs [("boxplot", Sample.boxplot)] (fs Sample.world) |},
   Raise RenderingError).
Proof.
  apply (failing_figure_keeps_earlier_images WORD
           [("boxplot", Sample.boxplot)] [("scatter_plot", Sample.scatter)]
           ("correlation_matrix", Sample.broken) Sample.now Sample.world).
  - repeat constructor. eexists. reflexivity.
  - reflexivity.
Defined.

Lemma save_loop_fs_other (figures : list (string * Figure)) (p : string) :
  p ∉ figure_paths figures ->
  forall w, fs (save_loop figures w).1 !! p = fs w !! p.
Proof.
  induction figures as [|nf figures IH]; intros Hp w; [reflexivity|].
  cbn in Hp. apply not_elem_of_cons in Hp as [Hne Hp].
  rewrite save_loop_cons.
  destruct (write_image nf.2 (image_path nf.1)) as [data|]; [|reflexivity].
  rewrite IH by exact Hp. cbn. by apply lookup_insert_ne.
Qed.

(** X7: whatever its outcome, a call changes no file but the images of
    its own figures and its own report: every other path of the file
    system holds after the call what it held before. *)
Theorem generate_touches_only_its_files (fmt : Format)
    (figures : list (string * Figure)) (now : datetime) (w : World)
    (p : string) :
  p ∉ figure_paths figures ->
  p <> report_path fmt now ->
  fs (generate fmt figures now w).1 !! p = fs w !! p.
Proof.
  intros Hp Hne.
  pose proof (save_loop_fs_other figures p Hp
                {| self := with_image_paths (self w) []; fs := fs w |}) as H.
  cbn [fs] in H. rewrite <- H. clear H.
  destruct fmt; unfold generate, generate_pdf, generate_word,
    save_current_figures; fold (save_loop figures);
    unfold mbind, M_bind, set_image_paths, get_self, lift, write_file,
      mret, M_ret;
    destruct (save_loop figures _) as [w1 [[]|e]]; cbn; try reflexivity.
  - destruct (Pdf.story (self w1)); cbn; [|reflexivity].
    apply lookup_insert_ne. intros Heq. apply Hne. by rewrite <- Heq.
  - destruct (Word.document (self w1)); cbn; [|reflexivity].
    apply lookup_insert_ne. intros Heq. apply Hne. by rewrite <- Heq.
Qed.

Lemma generate_touches_only_its_files_witness :
  fs (generate PDF Sample.figures Sample.now Cases.world_with_notes).1
    !! "output/reports/notes.txt"
  = fs Cases.world_with_notes !! "output/reports/notes.txt".
Proof.
  apply (generate_touches_only_its_files PDF Sample.figures Sample.now
           Cases.world_with_notes "output/reports/notes.txt").
  - vm_compute. intros H.
    repeat (apply elem_of_cons in H as [H|H]; [discriminate|]).
    by apply elem_of_nil in H.
  - vm_compute. discriminate.
Defined.

Lemma save_loop_keeps_data (figures : list (string * Figure)) (w : World) :
  with_image_paths (self (save_loop figures w).1) [] =
  with_image_paths (self w) [].
Proof.
  revert w. induction figures as [|nf figures IH]; intros w; [reflexivity|].
  rewrite save_loop_cons.
  destruct (write_image nf.2 (image_path nf.1)) as [data|]; [|reflexivity].
  rewrite IH. reflexivity.
Qed.

(** X8: whatever its outcome, a call changes nothing of the instance but
    the stored image paths: the data frame and both statistics tables are
    after the call what [__init__] made them. *)
Theorem generate_keeps_the_data (fmt : Format)
    (figures : list (string * Figure)) (now : datetime) (w : World) :
  df (self (generate fmt figures now w).1) = df (self w) /\
  platform_stats (self (generate fmt figures now w).1) = platform_stats (self w) /\
  category_stats (self (generate fmt figures now w).1) = category_stats (self w).
Proof.
  assert (with_image_paths (self (generate fmt figures now w).1) [] =
          with_image_paths (self w) []) as H.
  { transitivity
      (with_image_paths
         (self (save_loop figures
                  {| self := with_image_paths (self w) []; fs := fs w |}).1)
         []).
    - destruct fmt; unfold generate, generate_pdf, generate_word,
        save_current_figures; fold (save_loop figures);
        unfold mbind, M_bind, set_image_paths, get_self, lift, write_file,
          mret, M_ret;
        destruct (save_loop figures _) as [w1 [[]|e]]; cbn; try reflexivity.
      + destruct (Pdf.story (self w1)); reflexivity.
      + destruct (Word.document (self w1)); reflexivity.
    - rewrite save_loop_keeps_data. reflexivity. }
  unfold with_image_paths in H. injection H as H1 H2 H3. auto.
Qed.

(** ** Image paths *)

Lemma list_ascii_app (a b : string) :
  list_ascii_of_string (a +:+ b) =
  (list_ascii_of_string a ++ list_ascii_of_string b)%list.
Proof.
  induction a as [|c a IH]; [reflexivity|].
  change (String c a +:+ b) with (String c (a +:+ b)).
  cbn [list_ascii_of_string]. by rewrite IH.
Qed.

Lemma app_inj_r (a b e : string) : a +:+ e = b +:+ e -> a = b.
Proof.
  intros H. apply (f_equal list_ascii_of_string) in H.
  rewrite !list_ascii_app in H. apply app_inv_tail in H.
  apply (f_equal string_of_list_ascii) in H.
  by rewrite !string_of_list_ascii_of_string in H.
Qed.

Lemma prefix_slash_png (a : string) :
  String.prefix "/" (a +:+ ".png") = String.prefix "/" a.
Proof.
  destruct a as [|c a]; [reflexivity|].
  change (String c a +:+ ".png") with (String c (a +:+ ".png")).
  cbn [String.prefix]. destruct (ascii_dec "/" c); [|reflexivity].
  by destruct a.
Qed.

Lemma image_path_inj (a b : string) : image_path a = image_path b -> a = b.
Proof.
  unfold image_path, path_join. intros H.
  destruct (String.prefix "/" (a +:+ ".png")) eqn:Ha;
    destruct (String.prefix "/" (b +:+ ".png")) eqn:Hb.
  - by apply app_inj_r in H.
  - rewrite H in Ha. vm_compute in Ha. discriminate.
  - rewrite <- H in Hb. vm_compute in Hb. discriminate.
  - apply String.app_inj in H. apply String.app_inj in H.
    by apply app_inj_r in H.
Qed.

(** X9: the image of the figure [name] goes to
    [output/temp/<name>.png], unless the name starts with a slash: then
    [os.path.join] drops the directory and the path is [<name>.png]
    itself. Either way, two names give the same path only when they are
    the same name. *)
Theorem image_path_of_a_name (a b : string) :
  image_path a =
    (if String.prefix "/" a then a +:+ ".png"
     else "output/temp/" +:+ a +:+ ".png") /\
  (image_path a = image_path b <-> a = b).
Proof.
  split.
  - unfold image_path, path_join. rewrite prefix_slash_png.
    destruct (String.prefix "/" a); reflexivity.
  - split; [apply image_path_inj|by intros ->].
Qed.

Lemma NoDup_fst_functional {V : Type} (l : list (string * V)) (k : string)
    (v1 v2 : V) :
  NoDup (map fst l) -> (k, v1) ∈ l -> (k, v2) ∈ l -> v1 = v2.
Proof.
  induction l as [|[k' v'] l IH]; cbn; intros Hnd H1 H2.
  - by apply elem_of_nil in H1.
  - apply NoDup_cons in Hnd as [Hk Hnd].
    assert (forall v, (k', v) ∈ l -> False) as Habs.
    { intros v Hv. apply Hk. apply list_elem_of_fmap. by exists (k', v). }
    apply elem_of_cons in H1 as [E1|H1]; apply elem_of_cons in H2 as [E2|H2].
    + congruence.
    + injection E1 as -> ->. by destruct (Habs _ H2).
    + injection E2 as -> ->. by destruct (Habs _ H1).
    + by apply IH.
Qed.

Lemma plain_name_relative (name : string) :
  plain_name name -> String.prefix "/" name = false.
Proof.
  unfold plain_name. destruct name as [|c name]; [reflexivity|].
  cbn [list_ascii_of_string existsb String.prefix].
  destruct (ascii_dec "/" c) as [<-|Hne]; [discriminate|reflexivity].
Qed.

Lemma image_path_plain (name : string) :
  plain_name name -> image_path name = "output/temp/" +:+ name +:+ ".png".
Proof.
  intros Hp. unfold image_path, path_join.
  by rewrite prefix_slash_png, (plain_name_relative _ Hp).
Qed.

(** X10: when the names of a mapping are distinct and none holds a
    slash, the images are distinct files of the temp directory and no
    figure of a call overwrites the image of another: after a successful
    call, for every entry of the mapping the file
    [output/temp/<name>.png] holds the bytes that very figure wrote, and
    the file stays there. *)
Theorem each_figure_has_its_own_image (fmt : Format)
    (figures : list (string * Figure)) (now : datetime) (w : World) :
  wf (self w) ->
  Forall serializable figures ->
  NoDup (map fst figures) ->
  Forall (fun nf : string * Figure => plain_name nf.1) figures ->
  exists w' path,
    generate fmt figures now w = (w', Return path) /\
    forall name fig, (name, fig) ∈ figures ->
      exists data,
        write_image fig ("output/temp/" +:+ name +:+ ".png") = Some data /\
        fs w' !! ("output/temp/" +:+ name +:+ ".png") = Some (PngFile data).
Proof.
  intros Hwf Hok Hnd Hplain.
  exists (generated fmt figures now w), (report_path fmt now).
  split; [by apply generate_ok|].
  intros name fig Hin.
  assert (plain_name name) as Hname.
  { rewrite Forall_forall in Hplain. apply (Hplain _ Hin). }
  rewrite <- (image_path_plain _ Hname).
  assert (image_path name ∈ figure_paths figures) as Hp.
  { unfold figure_paths. apply list_elem_of_fmap. by exists (name, fig). }
  destruct (saved_fs_lookup figures (fs w) _ Hok Hp)
    as ([name' fig'] & data & Hnf & Hpath & Hw & Hl).
  cbn [fst snd] in Hpath, Hw. apply image_path_inj in Hpath. subst name'.
  assert (fig' = fig) as -> by (eapply NoDup_fst_functional; eauto).
  exists data. split; [exact Hw|].
  unfold generated. cbn [fs]. rewrite lookup_insert_ne; [exact Hl|].
  apply image_path_ne_report_path.
Qed.

Lemma each_figure_has_its_own_image_witness :
  exists w' path,
    generate PDF Sample.figures Sample.now Sample.world = (w', Return path) /\
    forall name fig, (name, fig) ∈ Sample.figures ->
      exists data,
        write_image fig ("output/temp/" +:+ name +:+ ".png") = Some data /\
        fs w' !! ("output/temp/" +:+ name +:+ ".png") = Some (PngFile data).
Proof.
  apply (each_figure_has_its_own_image PDF Sample.figures Sample.now Sample.world).
  - apply sample_wf.
  - apply sample_figures_serializable.
  - cbn. repeat constructor; vm_compute;
      intros H; repeat (apply elem_of_cons in H as [H|H]; [discriminate|]);
      by apply elem_of_nil in H.
  - repeat constructor.
Defined.

(** ** The four cells of a Word table row *)

Lemma set_cell_length (cells cells' : list string) (i : nat) (t : string) :
  set_cell cells i t = Return cells' -> length cells' = length cells.
Proof.
  unfold set_cell. destruct (decide (i < length cells)%nat); [|discriminate].
  intros [= <-]. apply length_insert.
Qed.

Lemma fill_cells_overflow (xs : list string) :
  forall (cells : list string) (start : nat),
    (start <= length cells < start + length xs)%nat ->
    fill_cells cells start xs = Raise IndexError.
Proof.
  induction xs as [|x xs IH]; intros cells start Hlen; [cbn in Hlen; lia|].
  cbn [fill_cells length] in *. unfold set_cell.
  destruct (decide (start < length cells)%nat) as [Hlt|Hge].
  - cbn. apply IH. rewrite length_insert. lia.
  - reflexivity.
Qed.

Lemma word_header_overflow (cols : list string) :
  (3 < length cols)%nat -> Word.row 4 "Platform" cols = Raise IndexError.
Proof.
  intros Hlen. unfold Word.row. cbn [mbind result_bind].
  change (set_cell (empty_row 4) 0 "Platform")
    with (Return ["Platform"; ""; ""; ""]).
  cbn [mbind result_bind]. apply fill_cells_overflow. cbn. lia.
Qed.

(** X11: the Word table is made with four columns. If the statistics
    hold more than three metric columns, [generate_word] fails with
    [IndexError] at the header row: the images of the call have been
    written, no report is. *)
Theorem word_report_overflows_on_a_fourth_metric
    (figures : list (string * Figure)) (now : datetime) (w : World) :
  (3 < length (columns (platform_stats (self w))))%nat ->
  Forall serializable figures ->
  generate_word figures now w =
  ({| self := with_image_paths (self w) (figure_paths figures);
      fs := saved_fs figures (fs w) |}, Raise IndexError).
Proof.
  intros Hcols Hok. unfold generate_word.
  unfold mbind at 1, M_bind. rewrite (save_current_figures_ok _ _ Hok).
  unfold mbind, M_bind, get_self, lift. cbn [self fs].
  unfold Word.document.
  assert (Word.overview_table
            (with_image_paths (self w) (figure_paths figures)) =
          Return [["Metric"; "Value"];
                  ["Total Orders";
                   total_orders_text
                     (with_image_paths (self w) (figure_paths figures))];
                  ["Number of Platforms";
                   platform_count_text
                     (with_image_paths (self w) (figure_paths figures))];
                  ["Number of Product Categories";
                   category_count_text
                     (with_image_paths (self w) (figure_paths figures))]])
    as -> by reflexivity.
  cbn [result_bind]. unfold Word.platform_table.
  cbn [platform_stats with_image_paths].
  rewrite (word_header_overflow _ Hcols). reflexivity.
Qed.

Lemma word_report_overflows_on_a_fourth_metric_witness :
  generate_word Sample.figures Sample.now Cases.wide_world =
  ({| self := with_image_paths (self Cases.wide_world)
                (figure_paths Sample.figures);
      fs := saved_fs Sample.figures (fs Cases.wide_world) |},
   Raise IndexError).
Proof.
  apply (word_report_overflows_on_a_fourth_metric
           Sample.figures Sample.now Cases.wide_world).
  - cbn. lia.
  - apply sample_figures_serializable.
Defined.

(** ** Report names, again *)

(** X12: the name of a report tells its format and its second: two
    calls get the same name if and only if they ask for the same format at
    the same second. *)
Theorem report_name_tells_format_and_second (fmt fmt' : Format)
    (t t' : datetime) :
  valid_datetime t ->
  valid_datetime t' ->
  (report_path fmt t = report_path fmt' t' <-> fmt = fmt' /\ t = t').
Proof.
  intros Ht Ht'. split.
  - by apply report_path_inj.
  - by intros [-> ->].
Qed.

Lemma next_second_valid : valid_datetime Cases.next_second.
Proof. unfold valid_datetime. cbn. lia. Defined.

Lemma report_name_tells_format_and_second_witness :
  report_path PDF Sample.now = report_path WORD Cases.next_second <->
  PDF = WORD /\ Sample.now = Cases.next_second.
Proof.
  apply (report_name_tells_format_and_second
           PDF WORD Sample.now Cases.next_second).
  - apply sample_now_valid.
  - apply next_second_valid.
Defined.

Lemma pdf_name_ne_word_name (now now' : datetime) :
  strftime now = strftime now' ->
  report_path PDF now <> report_path WORD now'.
Proof.
  unfold report_path. intros -> H.
  apply String.app_inj in H. apply String.app_inj in H. discriminate.
Qed.

(** X13: a PDF and a Word report made in the same second do not
    collide: the names differ by the extension, and after both calls each
    file holds its own document. *)
Theorem pdf_and_word_reports_coexist (figures : list (string * Figure))
    (now : datetime) (w : World) :
  wf (self w) ->
  Forall serializable figures ->
  exists w1 p1 f1 w2 p2 f2,
    generate_pdf figures now w = (w1, Return p1) /\
    fs w1 !! p1 = Some f1 /\
    generate_word figures now w1 = (w2, Return p2) /\
    p1 <> p2 /\
    fs w2 !! p1 = Some f1 /\
    fs w2 !! p2 = Some f2.
Proof.
  intros Hwf Hok.
  pose proof (generate_ok PDF figures now w Hwf Hok) as H1.
  pose proof (generate_ok WORD figures now
                (generated PDF figures now w)
                (generated_wf _ _ _ _ Hwf) Hok) as H2.
  cbn [generate] in H1, H2.
  eexists _, _, _, _, _, _.
  split; [exact H1|]. split; [apply lookup_generated|].
  split; [exact H2|].
  assert (report_path PDF now <> report_path WORD now) as Hne
    by (by apply pdf_name_ne_word_name).
  split; [exact Hne|].
  split; [|apply lookup_generated].
  rewrite generated_other_report;
    [apply lookup_generated|apply report_path_in_reports|exact Hne].
Qed.

Lemma pdf_and_word_reports_coexist_witness :
  exists w1 p1 f1 w2 p2 f2,
    generate_pdf Sample.figures Sample.now Sample.world = (w1, Return p1) /\
    fs w1 !! p1 = Some f1 /\
    generate_word Sample.figures Sample.now w1 = (w2, Return p2) /\
    p1 <> p2 /\
    fs w2 !! p1 = Some f1 /\
    fs w2 !! p2 = Some f2.
Proof.
  apply (pdf_and_word_reports_coexist Sample.figures Sample.now Sample.world).
  - apply sample_wf.
  - apply sample_figures_serializable.
Defined.

(** ** The callbacks of the dashboard *)

Lemma generate_returns_existing (fmt : Format)
    (figures : list (string * Figure)) (now : datetime) (w w' : World)
    (p : string) :
  generate fmt figures now w = (w', Return p) -> is_Some (fs w' !! p).
Proof.
  destruct fmt; unfold generate, generate_pdf, generate_word;
    unfold mbind, M_bind, get_self, lift, write_file, mret, M_ret;
    destruct (save_current_figures figures w) as [w1 [[]|e]];
    try discriminate.
  - destruct (Pdf.story (self w1)); [|discriminate].
    intros [= <- <-]. cbn. rewrite lookup_insert_eq. eauto.
  - destruct (Word.document (self w1)); [|discriminate].
    intros [= <- <-]. cbn. rewrite lookup_insert_eq. eauto.
Qed.

Lemma send_file_found (fmt : Format) (figures : list (string * Figure))
    (now : datetime) (w : World) (path : string) :
  (Dashboard.send_file (generate fmt figures now w)).2
  <> Dashboard.FileNotFound path.
Proof.
  destruct (generate fmt figures now w) as [w' [p|e]] eqn:E; cbn;
    [|discriminate].
  destruct (generate_returns_existing _ _ _ _ _ _ E) as [f ->]. discriminate.
Qed.

(** X14: whatever the state of the instance and of the file system, and
    whatever the charts, neither callback ever hands Dash the path of a
    file that does not exist: a path comes back from the generator only
    after the report was written at it. *)
Theorem callbacks_never_send_a_missing_file (c : Dashboard.Charts)
    (now : datetime) (n_clicks : option nat) (w : World) (path : string) :
  (Dashboard.generate_pdf_report c now n_clicks w).2
    <> Dashboard.FileNotFound path /\
  (Dashboard.generate_word_report c now n_clicks w).2
    <> Dashboard.FileNotFound path.
Proof.
  unfold Dashboard.generate_pdf_report, Dashboard.generate_word_report.
  destruct n_clicks as [[|k]|]; cbn [snd]; try (split; discriminate).
  split.
  - apply (send_file_found PDF).
  - apply (send_file_found WORD).
Qed.

(** X15: a click on a report button, when the six charts render,
    downloads the report just written, and its images are those of the
    six charts in the order of the keys of the dict, each at
    [output/temp/<key>.png]; without a click ([None] or zero) the callback
    does nothing at all. *)
Theorem report_callback_sends_the_six_charts (c : Dashboard.Charts)
    (now : datetime) (k : nat) (w : World) :
  wf (self w) ->
  Forall serializable (Dashboard.figures c) ->
  (exists w' f,
     Dashboard.generate_pdf_report c now (Some (S k)) w =
     (w', Dashboard.SendFile (report_path PDF now) f) /\
     fs w' !! report_path PDF now = Some f /\
     images f = ["output/temp/delivery_time_dist.png";
                 "output/temp/correlation_matrix.png";
                 "output/temp/scatter_plot.png";
                 "output/temp/boxplot.png";
                 "output/temp/category_times.png";
                 "output/temp/platform_values.png"]) /\
  (exists w' f,
     Dashboard.generate_word_report c now (Some (S k)) w =
     (w', Dashboard.SendFile (report_path WORD now) f) /\
     fs w' !! report_path WORD now = Some f /\
     images f = ["output/temp/delivery_time_dist.png";
                 "output/temp/correlation_matrix.png";
                 "output/temp/scatter_plot.png";
                 "output/temp/boxplot.png";
                 "output/temp/category_times.png";
                 "output/temp/platform_values.png"]) /\
  Dashboard.generate_pdf_report c now None w = (w, Dashboard.NoUpdate) /\
  Dashboard.generate_pdf_report c now (Some 0%nat) w = (w, Dashboard.NoUpdate) /\
  Dashboard.generate_word_report c now None w = (w, Dashboard.NoUpdate) /\
  Dashboard.generate_word_report c now (Some 0%nat) w = (w, Dashboard.NoUpdate).
Proof.
  intros Hwf Hok.
  pose proof (generate_ok PDF _ now w Hwf Hok) as H1.
  pose proof (generate_ok WORD _ now w Hwf Hok) as H2.
  cbn [generate] in H1, H2.
  unfold Dashboard.generate_pdf_report, Dashboard.generate_word_report.
  rewrite H1, H2. unfold Dashboard.send_file. rewrite !lookup_generated.
  split; [|split; [|repeat split]].
  - eexists _, _. split; [reflexivity|]. split; [apply lookup_generated|].
    apply (images_document_of PDF).
  - eexists _, _. split; [reflexivity|]. split; [apply lookup_generated|].
    apply (images_document_of WORD).
Qed.

Lemma sample_charts_serializable :
  Forall serializable (Dashboard.figures Cases.charts).
Proof. repeat constructor; eexists; reflexivity. Defined.

Lemma report_callback_sends_the_six_charts_witness :
  (exists w' f,
     Dashboard.generate_pdf_report Cases.charts Sample.now (Some 1%nat)
       Sample.world =
     (w', Dashboard.SendFile (report_path PDF Sample.now) f) /\
     fs w' !! report_path PDF Sample.now = Some f /\
     images f = ["output/temp/delivery_time_dist.png";
                 "output/temp/correlation_matrix.png";
                 "output/temp/scatter_plot.png";
                 "output/temp/boxplot.png";
                 "output/temp/category_times.png";
                 "output/temp/platform_values.png"]) /\
  (exists w' f,
     Dashboard.generate_word_report Cases.charts Sample.now (Some 1%nat)
       Sample.world =
     (w', Dashboard.SendFile (report_path WORD Sample.now) f) /\
     fs w' !! report_path WORD Sample.now = Some f /\
     images f = ["output/temp/delivery_time_dist.png";
                 "output/temp/correlation_matrix.png";
                 "output/temp/scatter_plot.png";
                 "output/temp/boxplot.png";
                 "output/temp/category_times.png";
                 "output/temp/platform_values.png"]) /\
  Dashboard.generate_pdf_report Cases.charts Sample.now None Sample.world
    = (Sample.world, Dashboard.NoUpdate) /\
  Dashboard.generate_pdf_report Cases.charts Sample.now (Some 0%nat) Sample.world
    = (Sample.world, Dashboard.NoUpdate) /\
  Dashboard.generate_word_report Cases.charts Sample.now None Sample.world
    = (Sample.world, Dashboard.NoUpdate) /\
  Dashboard.generate_word_report Cases.charts Sample.now (Some 0%nat) Sample.world
    = (Sample.world, Dashboard.NoUpdate).
Proof.
  apply (report_callback_sends_the_six_charts
           Cases.charts Sample.now 0 Sample.world).
  - apply sample_wf.
  - apply sample_charts_serializable.
Defined.

(** ** The upload *)

Lemma split_comma_length (s : string) :
  length (Upload.split_comma s) = S (Upload.comma_count s).
Proof.
  induction s as [|c s IH]; [reflexivity|].
  cbn [Upload.split_comma Upload.comma_count].
  destruct (Ascii.eqb c ","); cbn [length]; [by rewrite IH|].
  destruct (Upload.split_comma s); cbn [length] in *; lia.
Qed.

Lemma split_comma_free (b : string) :
  Upload.comma_count b = 0%nat -> Upload.split_comma b = [b].
Proof.
  induction b as [|c b IH]; [reflexivity|].
  cbn [Upload.split_comma Upload.comma_count].
  destruct (Ascii.eqb c ","); [discriminate|].
  intros H. by rewrite IH.
Qed.

Lemma split_comma_app (a b : string) :
  Upload.comma_count a = 0%nat ->
  Upload.split_comma (a +:+ "," +:+ b) = a :: Upload.split_comma b.
Proof.
  induction a as [|c a IH].
  - intros _. reflexivity.
  - change (String c a +:+ "," +:+ b) with (String c (a +:+ "," +:+ b)).
    cbn [Upload.split_comma Upload.comma_count].
    destruct (Ascii.eqb c ","); [discriminate|].
    intros H. by rewrite IH.
Qed.

(** X16: [parse_contents] unpacks the split of the upload into two
    names: whenever the text does not hold one comma and one only (none,
    or two and more), the call raises [ValueError], whatever the library
    calls would do, and they are not reached. *)
Theorem parse_contents_needs_exactly_one_comma (frame : Type)
    (load : string -> Upload.error + frame) (contents : string) :
  Upload.comma_count contents <> 1%nat ->
  Upload.parse_contents frame load contents = inl Upload.ValueError.
Proof.
  intros Hne. pose proof (split_comma_length contents) as H.
  unfold Upload.parse_contents.
  destruct (Upload.split_comma contents) as [|x [|y [|z l]]];
    cbn [length] in H; try reflexivity.
  lia.
Qed.

Lemma parse_contents_needs_exactly_one_comma_witness :
  Upload.parse_contents string (fun s => inr s) Cases.two_commas =
  inl Upload.ValueError.
Proof.
  apply (parse_contents_needs_exactly_one_comma string (fun s => inr s)
           Cases.two_commas).
  vm_compute. lia.
Defined.

(** X17: on an upload made of a header, one comma and a payload, the
    header is dropped and the payload alone is decoded and read: the
    result is the frame read from the payload, or the exception the
    reading raised. *)
Theorem parse_contents_reads_the_payload (frame : Type)
    (load : string -> Upload.error + frame) (header payload : string) :
  Upload.comma_count header = 0%nat ->
  Upload.comma_count payload = 0%nat ->
  Upload.parse_contents frame load (header +:+ "," +:+ payload) =
  load payload.
Proof.
  intros Hh Hp. unfold Upload.parse_contents.
  by rewrite (split_comma_app _ _ Hh), (split_comma_free _ Hp).
Qed.

Lemma parse_contents_reads_the_payload_witness :
  Upload.parse_contents string (fun s => inr s)
    ("data:text/csv;base64" +:+ "," +:+ "T3JkZXIgSUQ=") =
  (fun s : string => inr s) "T3JkZXIgSUQ=".
Proof.
  apply (parse_contents_reads_the_payload string (fun s => inr s)
           "data:text/csv;base64" "T3JkZXIgSUQ=").
  - reflexivity.
  - reflexivity.
Defined.
